(** * DatatableBuilder: the server-side DataTables query builder

    A shallow embedding of [src/app/Helpers/DatatableBuilder.ts] (class
    [QueryBuilder]) and the properties of its statement composition and
    response translation.

    The class is written against untyped values ([any]); the embedding
    therefore starts with a small model of the JavaScript values a request
    can carry and of the coercions the code applies to them.

    Scope of the value model.
    - Strings are sequences of code units below 256 ([Stdlib] strings).
    - Numbers are the integer-valued numbers and NaN.  An integer is exact
      as a JavaScript number up to [MAX_SAFE_INTEGER]; the theorems that
      print a number carry that bound.
    - Objects are plain data objects (what a JSON or query-string parser
      builds): an association list of own enumerable properties in
      enumeration order, with distinct keys.  No property holds a
      function, so an own property [toString] takes the place of the
      inherited method and the conversion of such an object to a
      primitive throws a TypeError ([Js.convertible]).  Properties
      inherited from the built-in prototypes are not modelled, apart from
      [length] and the indices of strings and arrays.
    - The configuration fields have the types the constructor documents:
      optional strings, a list of column names, optional dates. *)

From Stdlib Require Import ZArith List Bool Lia.
From Stdlib Require Import Strings.String Strings.Ascii.
From Stdlib Require Import Numbers.DecimalString Numbers.DecimalZ Numbers.DecimalFacts.
Import ListNotations.

Set Warnings "-register-all".

Open Scope string_scope.
Open Scope Z_scope.

(** ** JavaScript values *)

Module Js.

Inductive num : Type :=
| NaN
| Int (z : Z).

Inductive JsVal : Type :=
| JUndef
| JNull
| JBool (b : bool)
| JNum (n : num)
| JStr (s : string)
| JArr (l : list JsVal)
| JObj (props : list (string * JsVal)).

Inductive JsType : Type :=
| TUndefined | TObject | TBoolean | TNumber | TString.

Inductive Exn : Type :=
| TypeError.

(** Outcome of an expression that may throw. *)
Inductive Res (A : Type) : Type :=
| Ok (a : A)
| Throw (e : Exn).
Arguments Ok {A} a.
Arguments Throw {A} e.

Definition bind {A B : Type} (m : Res A) (k : A -> Res B) : Res B :=
  match m with
  | Ok a => k a
  | Throw e => Throw e
  end.

Notation "x <- m ;; k" := (bind m (fun x => k))
  (at level 61, m at next level, right associativity).

Definition MAX_SAFE_INTEGER : Z := 2 ^ 53 - 1.

Definition typeof (v : JsVal) : JsType :=
  match v with
  | JUndef => TUndefined
  | JNull | JArr _ | JObj _ => TObject
  | JBool _ => TBoolean
  | JNum _ => TNumber
  | JStr _ => TString
  end.

(** ToBoolean. *)
Definition truthy (v : JsVal) : bool :=
  match v with
  | JUndef | JNull => false
  | JBool b => b
  | JNum NaN => false
  | JNum (Int z) => negb (z =? 0)
  | JStr s => negb (String.eqb s "")
  | JArr _ | JObj _ => true
  end.

(** [v === s] for a string literal [s]. *)
Definition strictEqStr (v : JsVal) (s : string) : bool :=
  match v with
  | JStr t => String.eqb t s
  | _ => false
  end.

(** [v !== undefined]. *)
Definition isDefined (v : JsVal) : bool :=
  match v with
  | JUndef => false
  | _ => true
  end.

(** *** Number to string and back *)

(** [String(n)] for an integer-valued number: its decimal numeral.  This
    is the text the code prints for the integers up to
    [MAX_SAFE_INTEGER] in magnitude (from 1e21 on it prints an exponent). *)
Definition dec (z : Z) : string := NilZero.string_of_int (Z.to_int z).

Definition numToString (n : num) : string :=
  match n with
  | NaN => "NaN"
  | Int z => dec z
  end.

Definition isDigit (c : ascii) : bool :=
  let n := nat_of_ascii c in
  (Nat.leb 48 n && Nat.leb n 57)%bool.

(** StrWhiteSpaceChar below 256: TAB, LF, VT, FF, CR, SP, NBSP. *)
Definition isWhiteSpace (c : ascii) : bool :=
  let n := nat_of_ascii c in
  (Nat.eqb n 9 || Nat.eqb n 10 || Nat.eqb n 11 || Nat.eqb n 12
   || Nat.eqb n 13 || Nat.eqb n 32 || Nat.eqb n 160)%bool.

Fixpoint trimStart (s : string) : string :=
  match s with
  | String c s' => if isWhiteSpace c then trimStart s' else s
  | EmptyString => EmptyString
  end.

(** The longest prefix of decimal digits, and what follows it. *)
Fixpoint spanDigits (s : string) : string * string :=
  match s with
  | String c s' =>
      if isDigit c then let (d, r) := spanDigits s' in (String c d, r)
      else (EmptyString, s)
  | EmptyString => (EmptyString, EmptyString)
  end.

(** The value of a non-empty string of decimal digits. *)
Definition digitsValue (d : string) : option Z :=
  match d with
  | EmptyString => None
  | _ => option_map Z.of_uint (NilZero.uint_of_string d)
  end.

(** An optional sign and the rest of the text. *)
Definition splitSign (s : string) : bool * string :=
  match s with
  | String "-" r => (true, r)
  | String "+" r => (false, r)
  | _ => (false, s)
  end.

(** [parseInt(s, 10)] on a string: skip leading white space, read an
    optional sign, then the longest run of digits; NaN if there is none.
    The integer read is the number the code gets up to
    [MAX_SAFE_INTEGER] in magnitude; beyond it the code gets the nearest
    double. *)
Definition parseIntStr (s : string) : num :=
  let (neg, u) := splitSign (trimStart s) in
  match digitsValue (fst (spanDigits u)) with
  | Some z => Int (if neg then - z else z)
  | None => NaN
  end.

(** *** ToString *)

(** The text of a value.  For a value whose conversion throws (see
    [convertible] below) the code never obtains a text, and the one given
    here is immaterial. *)
Fixpoint toStr (v : JsVal) : string :=
  match v with
  | JUndef => "undefined"
  | JNull => "null"
  | JBool true => "true"
  | JBool false => "false"
  | JNum n => numToString n
  | JStr s => s
  | JArr l =>
      String.concat ","
        (map (fun e => match e with
                       | JUndef | JNull => ""
                       | _ => toStr e
                       end) l)
  | JObj _ => "[object Object]"
  end.

(** An own property named [k]. *)
Fixpoint hasOwn (k : string) (props : list (string * JsVal)) : bool :=
  match props with
  | [] => false
  | (k', _) :: ps => (String.eqb k k' || hasOwn k ps)%bool
  end.

(** The conversion of a value to a primitive (ToPrimitive, with either
    hint) returns.  A plain object converts through the inherited
    [toString] method; an own property [toString], which holds no
    function, takes its place and the conversion throws a TypeError,
    whatever [valueOf] is.  An array converts by joining the texts of its
    elements, and throws when one of them does. *)
Fixpoint convertible (v : JsVal) : bool :=
  match v with
  | JObj props => negb (hasOwn "toString" props)
  | JArr l => forallb convertible l
  | _ => true
  end.

(** [String(v)], and every other conversion of [v] to a string. *)
Definition toStringM (v : JsVal) : Res string :=
  if convertible v then Ok (toStr v) else Throw TypeError.

(** The number [parseInt(v, 10)] returns: the argument is first converted
    to a string.  Where that conversion throws there is no number, and
    NaN stands for it; [parseIntM] is the call itself. *)
Definition parseInt (v : JsVal) : num :=
  if convertible v then parseIntStr (toStr v) else NaN.

(** [parseInt(v, 10)]. *)
Definition parseIntM (v : JsVal) : Res num :=
  if convertible v then Ok (parseInt v) else Throw TypeError.

(** The model prints the text of [v] exactly: [v] is convertible and every
    number in it is NaN or an integer up to [MAX_SAFE_INTEGER] in
    magnitude. *)
Fixpoint printable (v : JsVal) : bool :=
  match v with
  | JNum (Int z) => Z.abs z <=? MAX_SAFE_INTEGER
  | JObj props => negb (hasOwn "toString" props)
  | JArr l => forallb printable l
  | _ => true
  end.

(** Comparisons of a number with a constant; NaN compares false. *)
Definition geZero (n : num) : bool :=
  match n with
  | NaN => false
  | Int z => 0 <=? z
  end.

Definition gtZero (n : num) : bool :=
  match n with
  | NaN => false
  | Int z => 0 <? z
  end.

Definition addNum (a b : num) : num :=
  match a, b with
  | Int x, Int y => Int (x + y)
  | _, _ => NaN
  end.

(** *** The relational test [v < 0]

    [v < 0] converts [v] to a number.  On a string that is StringToNumber:
    the trimmed text must be a numeric literal, and only a negative decimal
    literal (or [-Infinity]) is below zero; a magnitude so small that it
    rounds to zero gives [-0], which is not below zero. *)

Fixpoint trimEnd (s : string) : string :=
  match s with
  | String c s' =>
      let t := trimEnd s' in
      if (isWhiteSpace c && String.eqb t "")%bool then EmptyString
      else String c t
  | EmptyString => EmptyString
  end.

Definition trim (s : string) : string := trimEnd (trimStart s).

(** ExponentPart (optional), which must end the literal. *)
Definition exponentPart (s : string) : option Z :=
  match s with
  | EmptyString => Some 0
  | String c r =>
      if (Ascii.eqb c "e" || Ascii.eqb c "E")%bool then
        let (neg, u) := splitSign r in
        let (d, rest) := spanDigits u in
        match digitsValue d, rest with
        | Some z, EmptyString => Some (if neg then - z else z)
        | _, _ => None
        end
      else None
  end.

(** StrUnsignedDecimalLiteral other than [Infinity], read as a mantissa
    [m] and a decimal exponent [e]: the literal denotes [m * 10^e]. *)
Definition unsignedDecimal (s : string) : option (Z * Z) :=
  let (d1, r1) := spanDigits s in
  match r1 with
  | String "." r2 =>
      let (d2, r3) := spanDigits r2 in
      match digitsValue (d1 ++ d2), exponentPart r3 with
      | Some m, Some e => Some (m, e - Z.of_nat (String.length d2))
      | _, _ => None
      end
  | _ =>
      match digitsValue d1, exponentPart r1 with
      | Some m, Some e => Some (m, e)
      | _, _ => None
      end
  end.

(** [m * 10^e] does not round to zero: it exceeds half of the least
    positive number, [2^-1075]. *)
Definition roundsToNonZero (m e : Z) : bool :=
  if 0 <=? e then 0 <? m
  else 10 ^ (- e) <? m * 2 ^ 1075.

Definition strLtZero (s : string) : bool :=
  match trim s with
  | String "-" r =>
      (String.eqb r "Infinity"
       || match unsignedDecimal r with
          | Some (m, e) => roundsToNonZero m e
          | None => false
          end)%bool
  | _ => false
  end.

(** Whether [v < 0] holds; where the conversion of [v] throws it does not
    hold, and [ltZeroM] is the comparison itself. *)
Definition ltZero (v : JsVal) : bool :=
  match v with
  | JNum (Int z) => z <? 0
  | JStr s => strLtZero s
  | JArr _ => (convertible v && strLtZero (toStr v))%bool
  | JUndef | JNull | JBool _ | JNum NaN | JObj _ => false
  end.

(** [v < 0]. *)
Definition ltZeroM (v : JsVal) : Res bool :=
  if convertible v then Ok (ltZero v) else Throw TypeError.

(** *** Property access *)

Fixpoint lookup (k : string) (props : list (string * JsVal)) : JsVal :=
  match props with
  | [] => JUndef
  | (k', v) :: ps => if String.eqb k k' then v else lookup k ps
  end.

(** An array index: the canonical numeral of a natural number. *)
Definition arrayIndex (k : string) : option nat :=
  match parseIntStr k with
  | Int z =>
      if ((0 <=? z) && String.eqb (dec z) k)%bool then Some (Z.to_nat z)
      else None
  | NaN => None
  end.

Definition charAt (s : string) (i : nat) : JsVal :=
  match String.get i s with
  | Some c => JStr (String c EmptyString)
  | None => JUndef
  end.

Definition elemAt (l : list JsVal) (i : nat) : JsVal :=
  match nth_error l i with
  | Some v => v
  | None => JUndef
  end.

(** [v.k] (and [v[k]] for a key already converted to a string): reading a
    property of [undefined] or [null] throws a TypeError. *)
Definition get (v : JsVal) (k : string) : Res JsVal :=
  match v with
  | JUndef | JNull => Throw TypeError
  | JBool _ | JNum _ => Ok JUndef
  | JStr s =>
      if String.eqb k "length" then Ok (JNum (Int (Z.of_nat (String.length s))))
      else match arrayIndex k with
           | Some i => Ok (charAt s i)
           | None => Ok JUndef
           end
  | JArr l =>
      if String.eqb k "length" then Ok (JNum (Int (Z.of_nat (List.length l))))
      else match arrayIndex k with
           | Some i => Ok (elemAt l i)
           | None => Ok JUndef
           end
  | JObj props => Ok (lookup k props)
  end.

(** [v[key]] for a computed key whose conversion to a property name
    returns. *)
Definition getv (v key : JsVal) : Res JsVal := get v (toStr key).

(** [v[key]] for a computed key: the key is converted to a property name
    first. *)
Definition getvM (v key : JsVal) : Res JsVal :=
  k <- toStringM key ;; get v k.

(** *** The lodash helpers the class uses *)

Definition isObject (v : JsVal) : bool :=
  match v with
  | JArr _ | JObj _ => true
  | _ => false
  end.

Definition isArray (v : JsVal) : bool :=
  match v with
  | JArr _ => true
  | _ => false
  end.

Fixpoint chars (s : string) : list JsVal :=
  match s with
  | String c s' => JStr (String c EmptyString) :: chars s'
  | EmptyString => []
  end.

(** [_.isLength]. *)
Definition isLength (v : JsVal) : option nat :=
  match v with
  | JNum (Int n) =>
      if ((0 <=? n) && (n <=? MAX_SAFE_INTEGER))%bool then Some (Z.to_nat n)
      else None
  | _ => None
  end.

(** The elements [_.each] passes to its callback, in order: the elements
    of an array or array-like value, the own property values of any other
    object, nothing for [undefined], [null] and the other primitives. *)
Definition eachItems (v : JsVal) : list JsVal :=
  match v with
  | JUndef | JNull | JBool _ | JNum _ => []
  | JStr s => chars s
  | JArr l => l
  | JObj props =>
      match isLength (lookup "length" props) with
      | Some n => map (fun i => lookup (dec (Z.of_nat i)) props) (seq 0 n)
      | None => map (fun k => lookup k props) (map fst props)
      end
  end.

(** [_.keys]. *)
Definition keys (v : JsVal) : list string :=
  match v with
  | JStr s => map (fun i => dec (Z.of_nat i)) (seq 0 (String.length s))
  | JArr l => map (fun i => dec (Z.of_nat i)) (seq 0 (List.length l))
  | JObj props => map fst props
  | _ => []
  end.

(** [_.values]. *)
Definition values (v : JsVal) : list JsVal :=
  match v with
  | JStr s => chars s
  | JArr l => l
  | JObj props => map (fun k => lookup k props) (map fst props)
  | _ => []
  end.

End Js.

(** ** The query builder *)

Module QueryBuilder.
Import Js.

(** A [Date] of the configuration, known by the text [toISOString()]
    returns for it. *)
Record Date : Type := { toISOString : string }.

(** The instance state [this.self] that the constructor fills from its
    options ([aSearchColumns] is [options.aSearchColumns || []]). *)
Record Self : Type := {
  sTableName : option string;
  sCountColumnName : option string;
  sDatabaseOrSchema : option string;
  aSearchColumns : list string;
  sSelectSql : option string;
  sFromSql : option string;
  sWhereAndSql : option string;
  sDateColumnName : option string;
  dateFrom : option Date;
  dateTo : option Date;
  oRequestQuery : JsVal;
  sAjaxDataProp : string;
  dbType : option string
}.

(** The assignment [this.self.oRequestQuery = v]. *)
Definition set_oRequestQuery (self : Self) (v : JsVal) : Self :=
  {| sTableName := sTableName self;
     sCountColumnName := sCountColumnName self;
     sDatabaseOrSchema := sDatabaseOrSchema self;
     aSearchColumns := aSearchColumns self;
     sSelectSql := sSelectSql self;
     sFromSql := sFromSql self;
     sWhereAndSql := sWhereAndSql self;
     sDateColumnName := sDateColumnName self;
     dateFrom := dateFrom self;
     dateTo := dateTo self;
     oRequestQuery := v;
     sAjaxDataProp := sAjaxDataProp self;
     dbType := dbType self |}.

(** An optional configuration string as the value the code reads. *)
Definition cfg (o : option string) : JsVal :=
  match o with
  | Some s => JStr s
  | None => JUndef
  end.

(** The statements [buildQuery] returns; [None] is [null]. *)
Record StatementSet : Type := {
  changeDatabaseOrSchema : option string;
  q_recordsTotal : option string;
  q_recordsFiltered : option string;
  select : option string
}.

(** The reply [parseResponse] returns. *)
Record Response : Type := {
  recordsFiltered : JsVal;
  recordsTotal : JsVal;
  draw : JsVal;
  data : JsVal
}.

Definition DEFAULT_LIMIT : Z := 100.

(** *** sanitize *)

Definition dquote : ascii := ascii_of_nat 34.
Definition backslash : ascii := ascii_of_nat 92.

(** The character class of the regular expression of [sanitize]: NUL,
    backspace, TAB, ctrl-Z, LF, CR, the double and the single quote, the
    backslash and the percent sign. *)
Definition inEscapeClass (c : ascii) : bool :=
  let n := nat_of_ascii c in
  (Nat.eqb n 0 || Nat.eqb n 8 || Nat.eqb n 9 || Nat.eqb n 26
   || Nat.eqb n 10 || Nat.eqb n 13 || Nat.eqb n 34 || Nat.eqb n 39
   || Nat.eqb n 92 || Nat.eqb n 37)%bool.

(** The replacement callback: a [switch] without default, so a character
    with no case gives [undefined]. *)
Definition escapeChar (c : ascii) : JsVal :=
  let n := nat_of_ascii c in
  if Nat.eqb n 0 then JStr (String backslash "0")
  else if Nat.eqb n 8 then JStr (String backslash "b")
  else if Nat.eqb n 9 then JStr (String backslash "t")
  else if Nat.eqb n 26 then JStr (String backslash "z")
  else if Nat.eqb n 10 then JStr (String backslash "n")
  else if Nat.eqb n 13 then JStr (String backslash "r")
  else if (Nat.eqb n 34 || Nat.eqb n 39 || Nat.eqb n 92 || Nat.eqb n 37)%bool
       then JStr (String backslash (String c EmptyString))
  else JUndef.

(** [str.replace(re, callback)] with the global flag: every character of
    the class is replaced by the callback's result, converted to a string. *)
Fixpoint replaceEscapes (s : string) : string :=
  match s with
  | String c s' =>
      (if inEscapeClass c then toStr (escapeChar c) else String c EmptyString)
      ++ replaceEscapes s'
  | EmptyString => EmptyString
  end.

(** [sanitize(str, len)]; [len = None] is the call with one argument. *)
Definition sanitize (str : JsVal) (len : option nat) : JsVal :=
  let len := match len with
             | Some (S n) => S n
             | _ => 256%nat
             end in
  match str with
  | JStr s =>
      if (negb (truthy str) || Nat.ltb (String.length s) 1)%bool then str
      else if Nat.ltb len (String.length s) then JNull
      else JStr (replaceEscapes s)
  | _ => if negb (truthy str) then str else JNull
  end.

(** *** Statement parts that read the configuration only *)

Definition buildSetDatabaseOrSchemaStatement (self : Self) : option string :=
  if truthy (cfg (sDatabaseOrSchema self)) then
    if strictEqStr (cfg (dbType self)) "oracle"
    then Some ("ALTER SESSION SET CURRENT_SCHEMA = " ++ toStr (cfg (sDatabaseOrSchema self)))
    else Some ("USE " ++ toStr (cfg (sDatabaseOrSchema self)))
  else None.

Definition isSome {A : Type} (o : option A) : bool :=
  match o with
  | Some _ => true
  | None => false
  end.

(** The condition is written
    [sDateColumnName && dateFrom || dateTo], which groups as
    [(sDateColumnName && dateFrom) || dateTo]. *)
Definition buildDatePartial (self : Self) : option string :=
  if ((truthy (cfg (sDateColumnName self)) && isSome (dateFrom self))
      || isSome (dateTo self))%bool then
    match dateFrom self, dateTo self with
    | Some f, Some t =>
        Some (toStr (cfg (sDateColumnName self)) ++ " BETWEEN '"
              ++ toISOString f ++ "' AND '" ++ toISOString t ++ "'")
    | Some f, None =>
        Some (toStr (cfg (sDateColumnName self)) ++ " >= '" ++ toISOString f ++ "'")
    | None, Some t =>
        Some (toStr (cfg (sDateColumnName self)) ++ " <= '" ++ toISOString t ++ "'")
    | None, None => None
    end
  else None.

Definition buildSelectPartial (self : Self) : string :=
  "SELECT "
  ++ (if truthy (cfg (sSelectSql self)) then toStr (cfg (sSelectSql self)) else "*")
  ++ " FROM "
  ++ (if truthy (cfg (sFromSql self)) then toStr (cfg (sFromSql self))
      else toStr (cfg (sTableName self))).

(** *** The search predicates *)

Definition buildILIKESearch (colName searchVal : JsVal) : string :=
  "CAST(" ++ toStr colName ++ " as text)" ++ " ILIKE '%" ++ toStr searchVal ++ "%'".

Definition buildLIKESearch (colName searchVal : JsVal) : string :=
  toStr colName ++ " LIKE '%" ++ toStr searchVal ++ "%'".

(** One call of the callback of [_u.each] in [buildSearchArray]: the
    predicates it pushes for [column]. *)
Definition searchEntry (self : Self) (requestQuery : JsVal)
    (global customColumns : bool) (column : JsVal) : Res (list string) :=
  go <- (if customColumns then Ok true
         else s <- get column "searchable" ;; Ok (strictEqStr s "true")) ;;
  if go : bool then
    nameArg <- (if customColumns then Ok column else get column "name") ;;
    let colName := sanitize nameArg None in
    valArg <- (if global
               then s <- get requestQuery "search" ;; get s "value"
               else s <- get column "search" ;; get s "value") ;;
    let searchVal := sanitize valArg None in
    if (truthy colName && truthy searchVal)%bool then
      Ok [if strictEqStr (cfg (dbType self)) "postgres"
          then buildILIKESearch colName searchVal
          else buildLIKESearch colName searchVal]
    else Ok []
  else Ok [].

(** The loop of [_u.each]: the callback runs on each element in order and
    the first exception ends the loop. *)
Fixpoint eachPush (f : JsVal -> Res (list string)) (items : list JsVal)
    : Res (list string) :=
  match items with
  | [] => Ok []
  | x :: xs =>
      here <- f x ;;
      rest <- eachPush f xs ;;
      Ok (here ++ rest)%list
  end.

Definition isEmptyList {A : Type} (l : list A) : bool :=
  match l with
  | [] => true
  | _ => false
  end.

Definition buildSearchArray (self : Self) (requestQuery : JsVal) (global : bool)
    : Res (list string) :=
  let customColumns := (negb (isEmptyList (aSearchColumns self)) && global)%bool in
  items <- (if customColumns then Ok (map JStr (aSearchColumns self))
            else cols <- get requestQuery "columns" ;; Ok (eachItems cols)) ;;
  eachPush (searchEntry self requestQuery global customColumns) items.

Definition buildSearchPartial (self : Self) (requestQuery : JsVal) : Res string :=
  colSearches <- buildSearchArray self requestQuery false ;;
  globalSearches <- buildSearchArray self requestQuery true ;;
  let searches :=
    List.app
      (if isEmptyList colSearches then []
       else ["(" ++ String.concat " AND " colSearches ++ ")"])
      (if isEmptyList globalSearches then []
       else ["(" ++ String.concat " OR " globalSearches ++ ")"]) in
  Ok (String.concat " AND " searches).

Definition buildWherePartial (self : Self) (requestQuery : JsVal) : Res string :=
  searchQuery <- buildSearchPartial self requestQuery ;;
  let sWheres :=
    List.app
      (if truthy (JStr searchQuery) then [searchQuery] else [])
      (List.app
         (if truthy (cfg (sWhereAndSql self))
          then [toStr (cfg (sWhereAndSql self))] else [])
         match buildDatePartial self with
         | Some dateSql => if truthy (JStr dateSql) then [dateSql] else []
         | None => []
         end) in
  if isEmptyList sWheres then Ok ""
  else Ok (" WHERE (" ++ String.concat ") AND (" sWheres ++ ")").

(** The count statement; its unused local [dateSql] is left out. *)
Definition buildCountStatement (self : Self) (requestQuery : JsVal) : Res string :=
  w <- buildWherePartial self requestQuery ;;
  Ok ("SELECT COUNT("
      ++ (if truthy (cfg (sSelectSql self)) then toStr (cfg (sTableName self)) ++ ".id"
          else if truthy (cfg (sCountColumnName self))
               then toStr (cfg (sCountColumnName self)) else "id")
      ++ ") FROM "
      ++ (if truthy (cfg (sFromSql self)) then toStr (cfg (sFromSql self))
          else toStr (cfg (sTableName self)))
      ++ w).

(** *** ORDER BY and LIMIT *)

(** One pass of the loop of [buildOrderingPartial] over [orderQuery]. *)
Definition orderEntry (requestQuery order : JsVal) : Res (list string) :=
  cols <- get requestQuery "columns" ;;
  idx <- get order "column" ;;
  column <- getvM cols idx ;;
  orderable <- get column "orderable" ;;
  if strictEqStr orderable "true" then
    name <- get column "name" ;;
    if truthy name then
      nameText <- toStringM name ;;
      dir <- get order "dir" ;;
      dirText <- toStringM dir ;;
      Ok [nameText ++ " " ++ dirText]
    else Ok []
  else Ok [].

(** [orderQuery] is the one-element array [[requestQuery.order[0]]], so
    the test [_u.isArray(orderQuery)] holds and the loop runs once. *)
Definition buildOrderingPartial (requestQuery : JsVal) : Res string :=
  order <- get requestQuery "order" ;;
  first <- get order "0" ;;
  let orderQuery := [first] in
  query <- eachPush (orderEntry requestQuery) orderQuery ;;
  if isEmptyList query then Ok ""
  else Ok (" ORDER BY " ++ String.concat ", " query).

Definition buildLimitPartial (self : Self) (requestQuery : JsVal) : Res string :=
  if truthy requestQuery then
    startV <- get requestQuery "start" ;;
    if (isDefined startV && negb (strictEqStr (cfg (dbType self)) "oracle"))%bool then
      start <- parseIntM startV ;;
      if geZero start then
        lengthV <- get requestQuery "length" ;;
        negative <- ltZeroM lengthV ;;
        if negative : bool then Ok " "
        else
          len <- parseIntM lengthV ;;
          Ok ((if strictEqStr (cfg (dbType self)) "postgres"
               then " OFFSET " ++ numToString start ++ " LIMIT "
               else " LIMIT " ++ numToString start ++ ", ")
              ++ (if gtZero len then numToString len
                  else numToString (Int DEFAULT_LIMIT)))
      else Ok ""
    else Ok ""
  else Ok "".

(** *** buildQuery *)

Definition emptyQueries : StatementSet :=
  {| changeDatabaseOrSchema := None;
     q_recordsTotal := None;
     q_recordsFiltered := None;
     select := None |}.

Definition isObjectType (v : JsVal) : bool :=
  match typeof v with
  | TObject => true
  | _ => false
  end.

(** The statements built once the request is stored; [self] is the state
    after the assignment to [oRequestQuery]. *)
Definition buildStatements (self : Self) (requestQuery searchString : JsVal)
    : Res StatementSet :=
  let useStmt := buildSetDatabaseOrSchemaStatement self in
  total <- buildCountStatement self requestQuery ;;
  filtered <- (if truthy searchString
               then c <- buildCountStatement self requestQuery ;; Ok (Some c)
               else Ok None) ;;
  w <- buildWherePartial self requestQuery ;;
  o <- buildOrderingPartial requestQuery ;;
  l <- buildLimitPartial self requestQuery ;;
  let query := buildSelectPartial self ++ w ++ o ++ l in
  query' <- (if strictEqStr (cfg (dbType self)) "oracle" then
               startV <- get requestQuery "start" ;;
               start <- parseIntM startV ;;
               lengthV <- get requestQuery "length" ;;
               len <- parseIntM lengthV ;;
               if (geZero len && geZero start)%bool then
                 Ok ("SELECT * FROM (SELECT a.*, ROWNUM rnum FROM (" ++ query ++ ") "
                     ++ "a)" ++ " WHERE rnum BETWEEN "
                     ++ numToString (addNum start (Int 1))
                     ++ " AND " ++ numToString (addNum start len))
               else Ok query
             else Ok query) ;;
  Ok {| changeDatabaseOrSchema :=
          match useStmt with
          | Some u => if truthy (JStr u) then Some u else None
          | None => None
          end;
        q_recordsTotal := Some total;
        q_recordsFiltered := filtered;
        select := Some query' |}.

(** [buildQuery(requestQuery)]: the state of the instance after the call,
    and what the call returns or throws. *)
Definition buildQuery (self : Self) (requestQuery : JsVal)
    : Self * Res StatementSet :=
  if negb (isObjectType requestQuery) then (self, Ok emptyQueries)
  else
    match (search <- get requestQuery "search" ;;
           if isObject search then get search "value" else Ok (JStr ""))
    with
    | Throw e => (self, Throw e)
    | Ok searchArg =>
        let searchString := sanitize searchArg None in
        let self' := set_oRequestQuery self requestQuery in
        (self', buildStatements self' requestQuery searchString)
    end.

(** *** parseResponse *)

Definition orElse (v d : JsVal) : JsVal := if truthy v then v else d.

Definition extractResponseVal (res : JsVal) : Res JsVal :=
  if isArray res then
    len <- get res "length" ;;
    if truthy len then
      row <- get res "0" ;;
      if isObject row then
        match values row with
        | x :: _ => Ok x
        | [] => Ok JUndef
        end
      else Ok JUndef
    else Ok JUndef
  else Ok JUndef.

Definition isString (v : JsVal) : bool :=
  match typeof v with
  | TString => true
  | _ => false
  end.

(** The local [_queryResult] of [parseResponse]. *)
Definition localQueryResult : JsVal :=
  JObj [("recordsFiltered", JNum (Int 0));
        ("recordsTotal", JNum (Int 0));
        ("select", JNull)].

(** [parseResponse(queryResult)]: the counts and the rows are read from
    the local [_queryResult], the draw token from the stored request. *)
Definition parseResponse (self : Self) (queryResult : JsVal) : Res Response :=
  let _queryResult := localQueryResult in
  let oQuery := oRequestQuery self in
  drawV <- (if truthy oQuery then
              d <- get oQuery "draw" ;;
              if isString d then Ok (JNum (parseInt d)) else Ok (JNum (Int 0))
            else Ok (JNum (Int 0))) ;;
  if (isObject queryResult && Nat.ltb 1 (List.length (keys queryResult)))%bool then
    rt <- get _queryResult "recordsTotal" ;;
    x <- extractResponseVal rt ;;
    let total := orElse x (JNum (Int 0)) in
    rf <- get _queryResult "recordsFiltered" ;;
    filtered <- (if truthy rf
                 then y <- extractResponseVal rf ;; Ok (orElse y (JNum (Int 0)))
                 else Ok total) ;;
    sel <- get _queryResult "select" ;;
    Ok {| recordsFiltered := filtered; recordsTotal := total;
          draw := drawV; data := sel |}
  else
    Ok {| recordsFiltered := JNum (Int 0); recordsTotal := JNum (Int 0);
          draw := drawV; data := JNull |}.

(** *** The constructor *)

(** The options the constructor reads; [aSearchColumns] may be absent. *)
Module Options.
Record t : Type := {
  sTableName : option string;
  sCountColumnName : option string;
  sDatabaseOrSchema : option string;
  aSearchColumns : option (list string);
  sSelectSql : option string;
  sFromSql : option string;
  sWhereAndSql : option string;
  sDateColumnName : option string;
  dateFrom : option Date;
  dateTo : option Date;
  oRequestQuery : JsVal;
  dbType : option string
}.
End Options.

(** [new QueryBuilder(options)]: the options are copied, an absent
    allow-list becomes the empty list, and the data property is ['data']. *)
Definition new_QueryBuilder (options : Options.t) : Self :=
  {| sTableName := Options.sTableName options;
     sCountColumnName := Options.sCountColumnName options;
     sDatabaseOrSchema := Options.sDatabaseOrSchema options;
     aSearchColumns := match Options.aSearchColumns options with
                       | Some l => l
                       | None => []
                       end;
     sSelectSql := Options.sSelectSql options;
     sFromSql := Options.sFromSql options;
     sWhereAndSql := Options.sWhereAndSql options;
     sDateColumnName := Options.sDateColumnName options;
     dateFrom := Options.dateFrom options;
     dateTo := Options.dateTo options;
     oRequestQuery := Options.oRequestQuery options;
     sAjaxDataProp := "data";
     dbType := Options.dbType options |}.

(** *** filteredResult *)

(** ToNumber, on the values whose number the model represents: the number
    of a string or of an array (which converts through a string) may be
    fractional or infinite and is left out, and so is an object whose
    conversion throws. *)
Definition toNumber (v : JsVal) : option num :=
  match v with
  | JUndef => Some NaN
  | JNull => Some (Int 0)
  | JBool b => Some (Int (if b then 1 else 0))
  | JNum n => Some n
  | JObj _ => if convertible v then Some NaN else None
  | JStr _ | JArr _ => None
  end.

(** [Math.min] of two numbers. *)
Definition mathMin (a b : num) : num :=
  match a, b with
  | Int x, Int y => Int (Z.min x y)
  | _, _ => NaN
  end.

(** The number of passes of [for (idx = 0; idx < n; ++idx)]. *)
Definition loopCount (n : num) : nat :=
  match n with
  | Int z => Z.to_nat z
  | NaN => 0%nat
  end.

(** [_u.omit(obj, key)] on a plain object: a copy without [key]. *)
Definition omit (props : list (string * JsVal)) (key : string)
    : list (string * JsVal) :=
  filter (fun kv => negb (String.eqb (fst kv) key)) props.

(** The assignment [result[key] = v]: an existing property keeps its
    place, a new one comes last. *)
Fixpoint setProp (key : string) (v : JsVal) (props : list (string * JsVal))
    : list (string * JsVal) :=
  match props with
  | [] => [(key, v)]
  | (k, x) :: ps =>
      if String.eqb key k then (key, v) :: ps else (k, x) :: setProp key v ps
  end.

(** The elements [payload[idx]] the loop pushes, for the given indices. *)
Fixpoint pushAll (payload : JsVal) (idxs : list nat) : Res (list JsVal) :=
  match idxs with
  | [] => Ok []
  | i :: rest =>
      x <- getv payload (JNum (Int (Z.of_nat i))) ;;
      xs <- pushAll payload rest ;;
      Ok (x :: xs)
  end.

(** [filteredResult(obj, count)].  [None] marks a call the model does not
    cover: an [obj] that is truthy but not a plain object, or a count or a
    payload length that is a string, an array, or an object whose
    conversion to a number throws. *)
Definition filteredResult (self : Self) (obj count : JsVal) : option (Res JsVal) :=
  if truthy obj then
    match obj with
    | JObj props =>
        let prop := sAjaxDataProp self in
        let result := omit props prop in
        match (payload <- get obj prop ;;
               if truthy payload then get payload "length" else Ok (JNum (Int 0)))
        with
        | Throw e => Some (Throw e)
        | Ok aaLength =>
            let result := setProp "aaLength" aaLength result in
            let result := setProp prop (JArr []) result in
            match (if truthy count
                   then match toNumber count, toNumber aaLength with
                        | Some a, Some b => Some (mathMin a b)
                        | _, _ => None
                        end
                   else toNumber aaLength)
            with
            | None => None
            | Some counts =>
                Some (payload <- get obj prop ;;
                      pushed <- pushAll payload (seq 0 (loopCount counts)) ;;
                      Ok (JObj (setProp prop (JArr pushed) result)))
            end
        end
    | _ => None
    end
  else Some (Ok JNull).

End QueryBuilder.

(** ** Vocabulary of the properties *)

Module Props.
Import Js QueryBuilder.

(** The value of [request.k]: [undefined] when the request has no such
    property or cannot be read at all. *)
Definition field (request : JsVal) (k : string) : JsVal :=
  match get request k with
  | Ok v => v
  | Throw _ => JUndef
  end.

Definition isOracle (self : Self) : bool :=
  strictEqStr (cfg (dbType self)) "oracle".

Definition isPostgres (self : Self) : bool :=
  strictEqStr (cfg (dbType self)) "postgres".

(** The page size a LIMIT clause states: [length] when it parses as a
    positive integer, and 100 otherwise. *)
Definition lenOrDefault (lengthV : JsVal) : Z :=
  match parseInt lengthV with
  | Int l => if 0 <? l then l else 100
  | NaN => 100
  end.

(** The argument [buildQuery] passes to [sanitize]: the global search
    value when [request.search] is an object, the empty string otherwise. *)
Definition searchArg (request : JsVal) : JsVal :=
  if isObject (field request "search")
  then field (field request "search") "value"
  else JStr "".

(** The ROWNUM wrapping of an inner select statement. *)
Definition rownumWrap (inner : string) (lo hi : Z) : string :=
  "SELECT * FROM (SELECT a.*, ROWNUM rnum FROM (" ++ inner
  ++ ") a) WHERE rnum BETWEEN " ++ dec lo ++ " AND " ++ dec hi.

(** The draw token [parseResponse] echoes for a stored request: the
    integer parsed from [draw] when that is a string, 0 otherwise. *)
Definition echoedDraw (oQuery : JsVal) : JsVal :=
  match field oQuery "draw" with
  | JStr s => JNum (parseIntStr s)
  | _ => JNum (Int 0)
  end.

(** A number the model holds exactly as the code does: NaN, or an integer
    up to [MAX_SAFE_INTEGER] in magnitude ([parseInt] rounds larger ones
    to the nearest double). *)
Definition exactNum (n : num) : Prop :=
  match n with
  | NaN => True
  | Int z => Z.abs z <= MAX_SAFE_INTEGER
  end.

(** A canonical numeric string: the numeral [String(n)] of the integer it
    parses to. *)
Definition canonicalNumeric (s : string) : bool :=
  match parseIntStr s with
  | Int z => String.eqb (dec z) s
  | NaN => false
  end.

(** Escaping as the specification words it: each character of the class
    is prefixed with a backslash, every other character is kept. *)
Definition prefixEscape (c : ascii) : string :=
  if inEscapeClass c then String backslash (String c EmptyString)
  else String c EmptyString.

(** Escaping as a table: the six control characters become a backslash
    and a letter, the two quotes, the backslash and the percent sign are
    prefixed with a backslash, every other character is kept. *)
Definition sqlEscape (c : ascii) : string :=
  match nat_of_ascii c with
  | 0 => "\0"
  | 8 => "\b"
  | 9 => "\t"
  | 26 => "\z"
  | 10 => "\n"
  | 13 => "\r"
  | 34 | 39 | 92 | 37 => String backslash (String c EmptyString)
  | _ => String c EmptyString
  end%nat.

Fixpoint escapeAll (f : ascii -> string) (s : string) : string :=
  match s with
  | String c s' => f c ++ escapeAll f s'
  | EmptyString => EmptyString
  end.

(** The pattern-match predicate of a dialect. *)
Definition searchPredicate (self : Self) (colName searchVal : JsVal) : string :=
  if isPostgres self then buildILIKESearch colName searchVal
  else buildLIKESearch colName searchVal.

(** The column names a search can use: those that [sanitize] accepts and
    does not leave empty, escaped. *)
Definition usableNames (names : list JsVal) : list JsVal :=
  filter truthy (map (fun n => sanitize n None) names).

(** The names of the columns of a request that are marked searchable. *)
Definition searchableNames (columns : list JsVal) : list JsVal :=
  map (fun c => field c "name")
      (filter (fun c => strictEqStr (field c "searchable") "true") columns).

(** The predicates of a search group over the given column names, for an
    already sanitized search value: none when that value is empty. *)
Definition groupPredicates (self : Self) (names : list JsVal) (searchVal : JsVal)
    : list string :=
  if truthy searchVal
  then map (fun n => searchPredicate self n searchVal) (usableNames names)
  else [].

(** The predicates one name contributes to a group. *)
Definition entryPredicates (self : Self) (searchVal name : JsVal) : list string :=
  if (truthy (sanitize name None) && truthy searchVal)%bool
  then [searchPredicate self (sanitize name None) searchVal]
  else [].

(** A group of predicates joined by [sep] in parentheses; no group when
    there is no predicate. *)
Definition group (sep : string) (preds : list string) : list string :=
  match preds with
  | [] => []
  | _ => ["(" ++ String.concat sep preds ++ ")"]
  end.

(** *** Vocabulary of the further properties *)

(** The second character of an escape pair. *)
Definition isEscapeLetter (c : ascii) : bool :=
  let n := nat_of_ascii c in
  (Nat.eqb n 48 || Nat.eqb n 98 || Nat.eqb n 116 || Nat.eqb n 122
   || Nat.eqb n 110 || Nat.eqb n 114 || Nat.eqb n 34 || Nat.eqb n 39
   || Nat.eqb n 92 || Nat.eqb n 37)%bool.

(** A text in which every character of the escape class is accounted for:
    a backslash opens a pair with an escape letter, and no other character
    of the class occurs outside such a pair. *)
Fixpoint wellEscaped (s : string) : bool :=
  match s with
  | EmptyString => true
  | String c s' =>
      if Ascii.eqb c backslash then
        match s' with
        | String d s'' => (isEscapeLetter d && wellEscaped s'')%bool
        | EmptyString => false
        end
      else (negb (inEscapeClass c) && wellEscaped s')%bool
  end.

(** The character an escape letter stands for. *)
Definition unescapeLetter (d : ascii) : ascii :=
  match nat_of_ascii d with
  | 48 => ascii_of_nat 0
  | 98 => ascii_of_nat 8
  | 116 => ascii_of_nat 9
  | 122 => ascii_of_nat 26
  | 110 => ascii_of_nat 10
  | 114 => ascii_of_nat 13
  | _ => d
  end%nat.

(** Reading escape pairs back. *)
Fixpoint unescape (s : string) : string :=
  match s with
  | EmptyString => EmptyString
  | String c s' =>
      if Ascii.eqb c backslash then
        match s' with
        | String d s'' => String (unescapeLetter d) (unescape s'')
        | EmptyString => String c EmptyString
        end
      else String c (unescape s')
  end.

(** The number of characters of the escape class in a text. *)
Fixpoint countEscaped (s : string) : nat :=
  match s with
  | EmptyString => 0%nat
  | String c s' => ((if inEscapeClass c then 1 else 0) + countEscaped s')%nat
  end.

(** The value of [column.search.value]. *)
Definition columnSearchValue (column : JsVal) : JsVal :=
  field (field column "search") "value".

(** The predicates a column of the request contributes to the
    column-scoped group. *)
Definition columnPredicates (self : Self) (column : JsVal) : list string :=
  if strictEqStr (field column "searchable") "true"
  then entryPredicates self (sanitize (columnSearchValue column) None)
         (field column "name")
  else [].

(** A column the search callback can read: it is an object or a
    primitive, and if it is marked searchable its [search] is too. *)
Definition readableColumn (column : JsVal) : Prop :=
  column <> JUndef /\ column <> JNull
  /\ (strictEqStr (field column "searchable") "true" = true ->
      field column "search" <> JUndef /\ field column "search" <> JNull).

(** The ORDER BY clause for an order entry and the column it points to. *)
Definition orderClause (order column : JsVal) : string :=
  if (strictEqStr (field column "orderable") "true"
      && truthy (field column "name"))%bool
  then " ORDER BY " ++ toStr (field column "name") ++ " " ++ toStr (field order "dir")
  else "".

(** The schema statement of a configuration. *)
Definition schemaStatement (self : Self) : option string :=
  match sDatabaseOrSchema self with
  | Some (String c s) =>
      Some ((if isOracle self then "ALTER SESSION SET CURRENT_SCHEMA = " else "USE ")
            ++ String c s)
  | _ => None
  end.

(** How many rows [filteredResult] keeps of [len], for a count that is a
    number or absent. *)
Definition keptRows (count : JsVal) (len : nat) : nat :=
  match count with
  | JNum (Int c) => if c =? 0 then len else Z.to_nat (Z.min c (Z.of_nat len))
  | _ => len
  end.

(** The head of the count statements: what is counted, and from where. *)
Definition countHead (self : Self) : string :=
  "SELECT COUNT("
  ++ (if truthy (cfg (sSelectSql self)) then toStr (cfg (sTableName self)) ++ ".id"
      else if truthy (cfg (sCountColumnName self))
           then toStr (cfg (sCountColumnName self)) else "id")
  ++ ") FROM "
  ++ (if truthy (cfg (sFromSql self)) then toStr (cfg (sFromSql self))
      else toStr (cfg (sTableName self))).

(** The request asks the oracle dialect for a page: [start] and [length]
    both parse as non-negative integers. *)
Definition oraclePaged (request : JsVal) : bool :=
  (geZero (parseInt (field request "length"))
   && geZero (parseInt (field request "start")))%bool.

End Props.

(** ** Sample configurations and requests *)

Module Samples.
Import Js QueryBuilder.

Definition users (dialect : option string) (searchColumns : list string) : Self :=
  {| sTableName := Some "users";
     sCountColumnName := None;
     sDatabaseOrSchema := None;
     aSearchColumns := searchColumns;
     sSelectSql := None;
     sFromSql := None;
     sWhereAndSql := None;
     sDateColumnName := None;
     dateFrom := None;
     dateTo := None;
     oRequestQuery := JUndef;
     sAjaxDataProp := "data";
     dbType := dialect |}.

Definition column (name searchable orderable value : string) : JsVal :=
  JObj [("name", JStr name); ("searchable", JStr searchable);
        ("orderable", JStr orderable);
        ("search", JObj [("value", JStr value)])].

(** A well-formed request: one orderable column [name], sorted ascending,
    with the given draw token, global search term, start and length. *)
Definition request (drawTok term : string) (start len : Z) : JsVal :=
  JObj [("draw", JStr drawTok);
        ("search", JObj [("value", JStr term)]);
        ("columns", JArr [column "name" "true" "true" ""]);
        ("order", JArr [JObj [("column", JNum (Int 0)); ("dir", JStr "asc")]]);
        ("start", JNum (Int start));
        ("length", JNum (Int len))].

(** [{start: 10, length: 20}]. *)
Definition page_10_20 : JsVal :=
  JObj [("start", JNum (Int 10)); ("length", JNum (Int 20))].

(** What the database layer hands to [parseResponse] for a table of 42
    rows: a count result and the selected rows. *)
Definition results_42 : JsVal :=
  JObj [("recordsTotal", JArr [JObj [("COUNT(id)", JNum (Int 42))]]);
        ("select", JArr [JObj [("id", JNum (Int 1)); ("name", JStr "ann")]])].

(** An instance that holds the request [v]. *)
Definition holding (v : JsVal) : Self := set_oRequestQuery (users None []) v.

Definition newYear : Date := {| toISOString := "2024-01-01T00:00:00.000Z" |}.

(** A configuration with an upper date bound but no date column. *)
Definition untilNewYear : Self :=
  {| sTableName := Some "users";
     sCountColumnName := None;
     sDatabaseOrSchema := None;
     aSearchColumns := [];
     sSelectSql := None;
     sFromSql := None;
     sWhereAndSql := None;
     sDateColumnName := None;
     dateFrom := None;
     dateTo := Some newYear;
     oRequestQuery := JUndef;
     sAjaxDataProp := "data";
     dbType := None |}.

(** The request of the end-to-end scenario: draw 1, search term [ann],
    one searchable column [name], ascending order, first page of ten. *)
Definition annRequest : JsVal :=
  JObj [("draw", JStr "1");
        ("search", JObj [("value", JStr "ann")]);
        ("columns", JArr [column "name" "true" "true" ""]);
        ("order", JArr [JObj [("column", JNum (Int 0)); ("dir", JStr "asc")]]);
        ("start", JNum (Int 0));
        ("length", JNum (Int 10))].

(** A request sorted descending on the orderable column [age]. *)
Definition byAgeDesc : JsVal :=
  JObj [("columns", JArr [JObj [("orderable", JStr "true"); ("name", JStr "age")]]);
        ("order", JArr [JObj [("column", JNum (Int 0)); ("dir", JStr "desc")]])].

(** Start and length as a query-string parser delivers them: as text. *)
Definition page_text (start len : string) : JsVal :=
  JObj [("start", JStr start); ("length", JStr len)].

(** Options with a table name only. *)
Definition usersOptions : Options.t :=
  {| Options.sTableName := Some "users";
     Options.sCountColumnName := None;
     Options.sDatabaseOrSchema := None;
     Options.aSearchColumns := None;
     Options.sSelectSql := None;
     Options.sFromSql := None;
     Options.sWhereAndSql := None;
     Options.sDateColumnName := None;
     Options.dateFrom := None;
     Options.dateTo := None;
     Options.oRequestQuery := JUndef;
     Options.dbType := None |}.

(** A reply with three rows. *)
Definition reply3 : JsVal :=
  JObj [("draw", JNum (Int 1));
        ("recordsTotal", JNum (Int 3));
        ("data", JArr [JStr "a"; JStr "b"; JStr "c"])].

(** A request sorted on column [colName] of a single orderable column,
    with the direction text [dir]. *)
Definition sortedBy (colName dir : string) : JsVal :=
  JObj [("columns", JArr [JObj [("orderable", JStr "true"); ("name", JStr colName)]]);
        ("order", JArr [JObj [("column", JNum (Int 0)); ("dir", JStr dir)]])].

(** A request with a column-scoped search on [name] and no global term. *)
Definition nameSearch (value : string) : JsVal :=
  JObj [("search", JObj [("value", JStr "")]);
        ("columns", JArr [column "name" "true" "true" value;
                          column "age" "false" "true" "7"]);
        ("order", JArr [JObj [("column", JNum (Int 0)); ("dir", JStr "asc")]])].

End Samples.

(** ** Facts about the value model *)

Module JsFacts.
Import Js.

Lemma isDigit_not_space (c : ascii) : isDigit c = true -> isWhiteSpace c = false.
Proof.
  destruct c as [[] [] [] [] [] [] [] []]; vm_compute; congruence.
Qed.

Lemma splitSign_digit (c : ascii) (s : string) :
  isDigit c = true -> splitSign (String c s) = (false, String c s).
Proof.
  destruct c as [[] [] [] [] [] [] [] []]; vm_compute; congruence.
Qed.

(** A decimal numeral is made of digits only. *)
Lemma spanDigits_numeral (d : Decimal.uint) :
  spanDigits (NilEmpty.string_of_uint d) = (NilEmpty.string_of_uint d, EmptyString).
Proof.
  induction d; simpl; try reflexivity;
    change (isDigit _) with true; cbv iota; rewrite IHd; reflexivity.
Qed.

Lemma numeral_head (d : Decimal.uint) :
  d <> Decimal.Nil ->
  exists c s, NilEmpty.string_of_uint d = String c s /\ isDigit c = true.
Proof.
  destruct d; intros H; try congruence; simpl; eexists; eexists; split;
    try reflexivity; reflexivity.
Qed.

Lemma digitsValue_numeral (d : Decimal.uint) :
  d <> Decimal.Nil ->
  digitsValue (NilEmpty.string_of_uint d) = Some (Z.of_uint d).
Proof.
  intros H. destruct (numeral_head d H) as (c & s & E & _).
  unfold digitsValue. rewrite E, <- E.
  replace (NilEmpty.string_of_uint d) with (NilZero.string_of_uint d)
    by (destruct d; congruence || reflexivity).
  rewrite NilZero.usu by assumption. reflexivity.
Qed.

Lemma to_int_nonnil (z : Z) :
  match Z.to_int z with
  | Decimal.Pos d | Decimal.Neg d => d <> Decimal.Nil
  end.
Proof.
  destruct z; simpl; try discriminate;
    apply DecimalPos.Unsigned.to_uint_nonnil.
Qed.

(** Reading back the numeral of an integer gives the integer. *)
Lemma parseIntStr_dec (z : Z) : parseIntStr (dec z) = Int z.
Proof.
  unfold dec. pose proof (DecimalZ.of_to z) as Hz.
  pose proof (to_int_nonnil z) as Hn.
  destruct (Z.to_int z) as [d | d]; simpl in Hz.
  - replace (NilZero.string_of_int (Decimal.Pos d))
      with (NilEmpty.string_of_uint d)
      by (simpl; destruct d; congruence || reflexivity).
    destruct (numeral_head d Hn) as (c & s & E & Hc).
    unfold parseIntStr. rewrite E. simpl trimStart.
    rewrite (isDigit_not_space c Hc), (splitSign_digit c s Hc), <- E.
    rewrite spanDigits_numeral. simpl fst.
    rewrite digitsValue_numeral by assumption. congruence.
  - replace (NilZero.string_of_int (Decimal.Neg d))
      with (String "-" (NilEmpty.string_of_uint d))
      by (simpl; destruct d; congruence || reflexivity).
    unfold parseIntStr. simpl.
    rewrite spanDigits_numeral. simpl fst.
    rewrite digitsValue_numeral by assumption. congruence.
Qed.

Lemma append_assoc (a b c : string) : (a ++ b) ++ c = a ++ b ++ c.
Proof.
  induction a as [| x a IH]; simpl; [reflexivity | now rewrite IH].
Qed.

(** Reading a property of a value that is neither [undefined] nor [null]
    never throws. *)
Lemma get_total (v : JsVal) (k : string) :
  v <> JUndef -> v <> JNull -> exists x, get v k = Ok x.
Proof.
  destruct v; intros H1 H2; try congruence; simpl; eauto;
    destruct (String.eqb k "length"); eauto;
    destruct (arrayIndex k); eauto.
Qed.

Lemma get_truthy (v : JsVal) (k : string) :
  truthy v = true -> exists x, get v k = Ok x.
Proof.
  intros H. apply get_total; intros ->; discriminate.
Qed.

(** Only a plain object has a property named [start]. *)
Lemma get_start_defined (v x : JsVal) :
  get v "start" = Ok x -> x <> JUndef -> exists props, v = JObj props.
Proof.
  destruct v; simpl; try discriminate; intros [= <-] H; try congruence; eauto.
Qed.

End JsFacts.

(** ** Pagination *)

Module Pagination.
Import Js QueryBuilder Props JsFacts.

Lemma parseInt_undef : parseInt JUndef = NaN.
Proof. reflexivity. Qed.

Lemma field_start_falsy (rq : JsVal) :
  truthy rq = false -> field rq "start" = JUndef.
Proof.
  unfold field.
  destruct rq as [ | | b | n | s | l | ps]; simpl; intros H;
    reflexivity || discriminate.
Qed.

Lemma field_get (rq : JsVal) (k : string) :
  truthy rq = true -> get rq k = Ok (field rq k).
Proof.
  intros H. unfold field. destruct (get_truthy rq k H) as [x ->]. reflexivity.
Qed.

(** A request whose [start] parses as an integer is truthy and has a
    [start] property. *)
Lemma start_parses (rq : JsVal) (s : Z) :
  parseInt (field rq "start") = Int s ->
  truthy rq = true /\ isDefined (field rq "start") = true.
Proof.
  intros H. split.
  - destruct (truthy rq) eqn:T; [reflexivity |].
    rewrite (field_start_falsy rq T) in H. discriminate.
  - destruct (field rq "start"); try reflexivity. discriminate.
Qed.

(** A number read by [parseInt], and a value found below zero, come from
    a value whose conversion returns. *)
Lemma parseInt_convertible (v : JsVal) (s : Z) :
  parseInt v = Int s -> convertible v = true.
Proof.
  unfold parseInt. destruct (convertible v); [reflexivity | discriminate].
Qed.

Lemma ltZero_convertible (v : JsVal) : ltZero v = true -> convertible v = true.
Proof.
  destruct v as [ | | b | n | s | l | ps]; try reflexivity; simpl.
  - intros H. apply Bool.andb_true_iff in H. apply H.
  - discriminate.
Qed.

Lemma parseIntM_convertible (v : JsVal) :
  convertible v = true -> parseIntM v = Ok (parseInt v).
Proof. intros H. unfold parseIntM. rewrite H. reflexivity. Qed.

Lemma ltZeroM_convertible (v : JsVal) :
  convertible v = true -> ltZeroM v = Ok (ltZero v).
Proof. intros H. unfold ltZeroM. rewrite H. reflexivity. Qed.

(** [buildLimitPartial] returns when the conversions of [start] and
    [length] do. *)
Lemma buildLimitPartial_returns (self : Self) (rq : JsVal) :
  convertible (field rq "start") = true ->
  convertible (field rq "length") = true ->
  exists out, buildLimitPartial self rq = Ok out.
Proof.
  intros Cs Cl. unfold buildLimitPartial. destruct (truthy rq) eqn:T; [| eauto].
  rewrite (field_get rq "start" T), (field_get rq "length" T). cbn [bind].
  rewrite (parseIntM_convertible _ Cs), (ltZeroM_convertible _ Cl),
          (parseIntM_convertible _ Cl).
  cbn [bind].
  repeat match goal with
         | |- context [if ?b then _ else _] => destruct b
         end; eauto.
Qed.

Lemma buildLimitPartial_oracle (self : Self) (rq : JsVal) :
  isOracle self = true -> buildLimitPartial self rq = Ok "".
Proof.
  unfold isOracle. intros O. unfold buildLimitPartial.
  destruct (truthy rq) eqn:T; [| reflexivity].
  rewrite (field_get rq "start" T). simpl. rewrite O.
  rewrite Bool.andb_false_r. reflexivity.
Qed.

End Pagination.

(** C7: [buildLimitPartial] returns the empty string for every request
    when the dialect is oracle; for the other dialects a clause is emitted
    only when [request.start] parses as a non-negative integer, and then
    the clause is the single space when [request.length < 0], and
    otherwise [ OFFSET <start> LIMIT <len>] on postgres and
    [ LIMIT <start>, <len>] on the other dialects, with [<len>] the parsed
    length when positive and 100 otherwise.  The call returns whenever the
    conversions of [start] and [length] to a primitive do. *)
Theorem C7_buildLimitPartial (self : QueryBuilder.Self) (rq : Js.JsVal) :
  (Js.convertible (Props.field rq "start") = true ->
   Js.convertible (Props.field rq "length") = true ->
   exists out, QueryBuilder.buildLimitPartial self rq = Js.Ok out)
  /\ (Props.isOracle self = true ->
      QueryBuilder.buildLimitPartial self rq = Js.Ok "")
  /\ (Props.isOracle self = false ->
      (forall out,
          QueryBuilder.buildLimitPartial self rq = Js.Ok out -> out <> "" ->
          exists s, Js.parseInt (Props.field rq "start") = Js.Int s /\ 0 <= s)
      /\ (forall s,
             Js.parseInt (Props.field rq "start") = Js.Int s ->
             0 <= s <= Js.MAX_SAFE_INTEGER ->
             (Js.ltZero (Props.field rq "length") = true ->
              QueryBuilder.buildLimitPartial self rq = Js.Ok " ")
             /\ (Js.convertible (Props.field rq "length") = true ->
                 Js.ltZero (Props.field rq "length") = false ->
                 Props.lenOrDefault (Props.field rq "length") <= Js.MAX_SAFE_INTEGER ->
                 QueryBuilder.buildLimitPartial self rq =
                 Js.Ok (if Props.isPostgres self
                        then " OFFSET " ++ Js.dec s ++ " LIMIT "
                             ++ Js.dec (Props.lenOrDefault (Props.field rq "length"))
                        else " LIMIT " ++ Js.dec s ++ ", "
                             ++ Js.dec (Props.lenOrDefault (Props.field rq "length"))))
             /\ (Js.convertible (Props.field rq "length") = true ->
                 Js.ltZero (Props.field rq "length") = false ->
                 Js.gtZero (Js.parseInt (Props.field rq "length")) = false ->
                 QueryBuilder.buildLimitPartial self rq =
                 Js.Ok (if Props.isPostgres self
                        then " OFFSET " ++ Js.dec s ++ " LIMIT 100"
                        else " LIMIT " ++ Js.dec s ++ ", 100")))).
Proof.
  split; [apply Pagination.buildLimitPartial_returns |].
  split.
  - apply Pagination.buildLimitPartial_oracle.
  - unfold Props.isOracle, Props.isPostgres. intros O. split.
    + intros out. unfold QueryBuilder.buildLimitPartial.
      destruct (Js.truthy rq) eqn:T; [| intros [= <-] H; congruence].
      rewrite (Pagination.field_get rq "start" T). cbn [Js.bind]. rewrite O.
      cbn [negb]. rewrite Bool.andb_true_r.
      destruct (Js.isDefined (Props.field rq "start"));
        [| intros [= <-] H; congruence].
      unfold Js.parseIntM.
      destruct (Js.convertible (Props.field rq "start")); cbn [Js.bind];
        [| discriminate].
      destruct (Js.parseInt (Props.field rq "start")) as [| s] eqn:P;
        cbn [Js.geZero]; [intros [= <-] H; congruence |].
      destruct (0 <=? s) eqn:G; [| intros [= <-] H; congruence].
      intros _ _. exists s. split; [reflexivity | lia].
    + intros s P [G _].
      destruct (Pagination.start_parses rq s P) as [T D].
      assert (E : QueryBuilder.buildLimitPartial self rq
                 = Js.bind (Js.ltZeroM (Props.field rq "length"))
                     (fun negative : bool =>
                        if negative then Js.Ok " "
                        else Js.bind (Js.parseIntM (Props.field rq "length"))
                               (fun len =>
                                  Js.Ok ((if Js.strictEqStr
                                               (QueryBuilder.cfg (QueryBuilder.dbType self))
                                               "postgres"
                                          then " OFFSET " ++ Js.dec s ++ " LIMIT "
                                          else " LIMIT " ++ Js.dec s ++ ", ")
                                         ++ (if Js.gtZero len then Js.numToString len
                                             else "100"))))).
      { unfold QueryBuilder.buildLimitPartial. rewrite T.
        rewrite (Pagination.field_get rq "start" T),
                (Pagination.field_get rq "length" T).
        cbn [Js.bind]. rewrite D, O.
        rewrite (Pagination.parseIntM_convertible _
                   (Pagination.parseInt_convertible _ s P)), P.
        cbn [negb andb Js.bind Js.geZero Js.numToString].
        replace (0 <=? s) with true by (symmetry; apply Z.leb_le; exact G).
        reflexivity. }
      rewrite E. split; [| split].
      * intros L.
        rewrite (Pagination.ltZeroM_convertible _
                   (Pagination.ltZero_convertible _ L)), L.
        reflexivity.
      * intros C L _. rewrite (Pagination.ltZeroM_convertible _ C), L.
        cbn [Js.bind]. rewrite (Pagination.parseIntM_convertible _ C).
        cbn [Js.bind]. unfold Props.lenOrDefault.
        destruct (Js.parseInt (Props.field rq "length")) as [| l];
          cbn [Js.gtZero Js.numToString].
        -- destruct (Js.strictEqStr _ "postgres"); cbn [append];
             rewrite ?JsFacts.append_assoc; reflexivity.
        -- destruct (0 <? l); destruct (Js.strictEqStr _ "postgres");
             cbn [append]; rewrite ?JsFacts.append_assoc; reflexivity.
      * intros C L Z0. rewrite (Pagination.ltZeroM_convertible _ C), L.
        cbn [Js.bind]. rewrite (Pagination.parseIntM_convertible _ C).
        cbn [Js.bind]. rewrite Z0.
        destruct (Js.strictEqStr _ "postgres"); cbn [append];
          rewrite ?JsFacts.append_assoc; reflexivity.
Qed.

(** With [{start: 10, length: 20}]: [ OFFSET 10 LIMIT 20] on postgres and
    [ LIMIT 10, 20] on mysql; with [{start: 10, length: 0}] the page size
    is 100. *)
Lemma C7_buildLimitPartial_witness :
  QueryBuilder.buildLimitPartial (Samples.users (Some "postgres") []) Samples.page_10_20
  = Js.Ok " OFFSET 10 LIMIT 20"
  /\ QueryBuilder.buildLimitPartial (Samples.users (Some "mysql") []) Samples.page_10_20
     = Js.Ok " LIMIT 10, 20"
  /\ QueryBuilder.buildLimitPartial (Samples.users (Some "mysql") [])
       (Js.JObj [("start", Js.JNum (Js.Int 10)); ("length", Js.JNum (Js.Int 0))])
     = Js.Ok " LIMIT 10, 100".
Proof.
  split; [| split].
  - destruct (C7_buildLimitPartial (Samples.users (Some "postgres") []) Samples.page_10_20)
      as [_ [_ H]].
    destruct (H eq_refl) as [_ H'].
    destruct (H' 10 eq_refl) as [_ [H'' _]]; [vm_compute; split; congruence |].
    apply H''; [reflexivity | reflexivity | vm_compute; congruence].
  - destruct (C7_buildLimitPartial (Samples.users (Some "mysql") []) Samples.page_10_20)
      as [_ [_ H]].
    destruct (H eq_refl) as [_ H'].
    destruct (H' 10 eq_refl) as [_ [H'' _]]; [vm_compute; split; congruence |].
    apply H''; [reflexivity | reflexivity | vm_compute; congruence].
  - destruct (C7_buildLimitPartial (Samples.users (Some "mysql") [])
                (Js.JObj [("start", Js.JNum (Js.Int 10)); ("length", Js.JNum (Js.Int 0))]))
      as [_ [_ H]].
    destruct (H eq_refl) as [_ H'].
    destruct (H' 10 eq_refl) as [_ [_ H'']]; [vm_compute; split; congruence |].
    apply H''; reflexivity.
Defined.

(** ** Composition of the statements *)

Module Composition.
Import Js QueryBuilder Props JsFacts.

Lemma append_empty_r (a : string) : a ++ "" = a.
Proof.
  induction a as [| x a IH]; simpl; [reflexivity | now rewrite IH].
Qed.

Lemma throw_TypeError {A : Type} (e : Exn) : @Throw A e = Throw TypeError.
Proof. destruct e. reflexivity. Qed.

(** The statement parts read the configuration, never the stored request. *)
Lemma buildStatements_stored (self : Self) (v rq ss : JsVal) :
  buildStatements (set_oRequestQuery self v) rq ss = buildStatements self rq ss.
Proof. reflexivity. Qed.

(** On an array or a plain object the guard lets the request through,
    reading the search term succeeds, and the request is stored. *)
Lemma buildQuery_isObject (self : Self) (rq : JsVal) :
  isObject rq = true ->
  buildQuery self rq =
  (set_oRequestQuery self rq,
   buildStatements self rq (sanitize (searchArg rq) None)).
Proof.
  intros H. unfold buildQuery, searchArg, field.
  destruct rq as [ | | b | n | s | l | ps]; try discriminate; simpl.
  - reflexivity.
  - destruct (lookup "search" ps) as [ | | b | n | s | l | qs]; reflexivity.
Qed.

Lemma buildQuery_null (self : Self) :
  buildQuery self JNull = (self, Throw TypeError).
Proof. reflexivity. Qed.

(** Values that are not of type [object] are answered with the empty
    statement set and leave the instance as it was. *)
Lemma buildQuery_not_object (self : Self) (rq : JsVal) :
  isObjectType rq = false -> buildQuery self rq = (self, Ok emptyQueries).
Proof.
  intros H. unfold buildQuery. rewrite H. reflexivity.
Qed.

Lemma isObjectType_cases (rq : JsVal) :
  isObjectType rq = true -> rq = JNull \/ isObject rq = true.
Proof.
  destruct rq; simpl; intros H; try discriminate; auto.
Qed.

(** What [buildStatements] returns when its composers succeed. *)
Lemma buildStatements_ok (self : Self) (rq ss : JsVal) (w o l : string) :
  buildWherePartial self rq = Ok w ->
  buildOrderingPartial rq = Ok o ->
  buildLimitPartial self rq = Ok l ->
  (isOracle self = true ->
   convertible (field rq "start") = true
   /\ convertible (field rq "length") = true) ->
  exists q,
    buildStatements self rq ss = Ok q
    /\ (isOracle self = false ->
        select q = Some (buildSelectPartial self ++ w ++ o ++ l))
    /\ (isOracle self = true ->
        select q =
        Some (let query := buildSelectPartial self ++ w ++ o ++ l in
              let start := parseInt (field rq "start") in
              let len := parseInt (field rq "length") in
              if (geZero len && geZero start)%bool
              then "SELECT * FROM (SELECT a.*, ROWNUM rnum FROM (" ++ query
                   ++ ") a) WHERE rnum BETWEEN "
                   ++ numToString (addNum start (Int 1))
                   ++ " AND " ++ numToString (addNum start len)
              else query)).
Proof.
  intros W O L C. unfold buildStatements, buildCountStatement.
  unfold isOracle in *.
  rewrite W, O, L. simpl.
  assert (G : forall k, get rq k = Ok (field rq k)).
  { intros k. unfold field.
    assert (N1 : rq <> JUndef) by (intros ->; discriminate O).
    assert (N2 : rq <> JNull) by (intros ->; discriminate O).
    destruct (get_total rq k N1 N2) as [x ->]. reflexivity. }
  destruct (strictEqStr (cfg (dbType self)) "oracle") eqn:D.
  - destruct (C eq_refl) as [Cs Cl].
    destruct (truthy ss); simpl; rewrite ?G; cbn [bind];
      rewrite (Pagination.parseIntM_convertible _ Cs); cbn [bind];
      rewrite ?G; cbn [bind];
      rewrite (Pagination.parseIntM_convertible _ Cl); cbn [bind];
      destruct (geZero (parseInt (field rq "length"))
                && geZero (parseInt (field rq "start")))%bool; simpl;
      eexists; (split; [reflexivity |]); split; intros; try discriminate;
      reflexivity.
  - destruct (truthy ss); simpl;
      eexists; (split; [reflexivity |]); split; intros; try discriminate;
      reflexivity.
Qed.

(** A composer that throws makes [buildStatements] throw. *)
Lemma buildStatements_order_throws (self : Self) (rq ss : JsVal) (e : Exn) :
  buildOrderingPartial rq = Throw e ->
  buildStatements self rq ss = Throw TypeError.
Proof.
  intros O. unfold buildStatements.
  destruct (buildCountStatement self rq) as [t | x]; simpl;
    [| apply throw_TypeError].
  destruct (truthy ss); simpl;
    destruct (buildWherePartial self rq) as [w | y]; simpl;
    try apply throw_TypeError; rewrite O; apply throw_TypeError.
Qed.

(** Every statement set that [buildStatements] returns has a select
    statement, and it starts with SELECT. *)
Lemma buildStatements_select (self : Self) (rq ss : JsVal) (q : StatementSet) :
  buildStatements self rq ss = Ok q ->
  exists s, select q = Some s /\ String.prefix "SELECT" s = true.
Proof.
  unfold buildStatements.
  destruct (buildCountStatement self rq) as [t | x]; simpl; [| discriminate].
  destruct (match truthy ss with true => _ | false => _ end) as [f | x];
    simpl; [| discriminate].
  destruct (buildWherePartial self rq) as [w | x]; simpl; [| discriminate].
  destruct (buildOrderingPartial rq) as [o | x]; simpl; [| discriminate].
  destruct (buildLimitPartial self rq) as [l | x]; simpl; [| discriminate].
  destruct (strictEqStr (cfg (dbType self)) "oracle"); simpl.
  - destruct (get rq "start") as [st | x]; simpl; [| discriminate].
    destruct (parseIntM st) as [start | x]; simpl; [| discriminate].
    destruct (get rq "length") as [ln | x]; simpl; [| discriminate].
    destruct (parseIntM ln) as [len | x]; simpl; [| discriminate].
    destruct (geZero len && geZero start)%bool; simpl;
      intros [= <-]; simpl; eexists; split; reflexivity.
  - intros [= <-]; simpl; eexists; split; reflexivity.
Qed.

End Composition.

(** C8: on the oracle dialect, when [start] and [length] of the request
    both parse as non-negative integers (and the WHERE and ORDER composers
    return), [buildQuery] returns a statement set whose select statement is
    the ROWNUM wrapping of the inner select, constrained to
    [rnum BETWEEN start+1 AND start+length]. *)
Theorem C8_oracle_rownum_wrap
    (self : QueryBuilder.Self) (rq : Js.JsVal) (s l : Z) (w o : string) :
  Props.isOracle self = true ->
  Js.parseInt (Props.field rq "start") = Js.Int s -> 0 <= s ->
  Js.parseInt (Props.field rq "length") = Js.Int l -> 0 <= l ->
  s + l <= Js.MAX_SAFE_INTEGER ->
  QueryBuilder.buildWherePartial self rq = Js.Ok w ->
  QueryBuilder.buildOrderingPartial rq = Js.Ok o ->
  exists q,
    snd (QueryBuilder.buildQuery self rq) = Js.Ok q
    /\ QueryBuilder.select q =
       Some (Props.rownumWrap (QueryBuilder.buildSelectPartial self ++ w ++ o)
               (s + 1) (s + l)).
Proof.
  intros D Ps Hs Pl Hl _ W O.
  assert (Obj : Js.isObject rq = true).
  { unfold Props.field in Ps. destruct (Js.get rq "start") as [x | e] eqn:G;
      [| discriminate].
    destruct (JsFacts.get_start_defined rq x G) as [ps ->]; [| reflexivity].
    intros ->. discriminate. }
  rewrite (Composition.buildQuery_isObject self rq Obj). simpl snd.
  destruct (Composition.buildStatements_ok self rq
              (QueryBuilder.sanitize (Props.searchArg rq) None) w o ""
              W O (Pagination.buildLimitPartial_oracle self rq D)
              (fun _ => conj (Pagination.parseInt_convertible _ s Ps)
                             (Pagination.parseInt_convertible _ l Pl)))
    as (q & E & _ & S).
  exists q. split; [exact E |].
  rewrite (S D), Ps, Pl. cbv zeta. simpl Js.geZero.
  replace (0 <=? l) with true by (symmetry; apply Z.leb_le; exact Hl).
  replace (0 <=? s) with true by (symmetry; apply Z.leb_le; exact Hs).
  rewrite !Composition.append_empty_r. reflexivity.
Qed.

(** With [start = 0] and [length = 10] the wrapping constrains
    [rnum BETWEEN 1 AND 10]. *)
Lemma C8_oracle_rownum_wrap_witness :
  exists q,
    snd (QueryBuilder.buildQuery (Samples.users (Some "oracle") [])
           (Samples.request "1" "" 0 10)) = Js.Ok q
    /\ QueryBuilder.select q =
       Some "SELECT * FROM (SELECT a.*, ROWNUM rnum FROM (SELECT * FROM users ORDER BY name asc) a) WHERE rnum BETWEEN 1 AND 10".
Proof.
  apply (C8_oracle_rownum_wrap (Samples.users (Some "oracle") [])
           (Samples.request "1" "" 0 10) 0 10 "" " ORDER BY name asc").
  - reflexivity.
  - reflexivity.
  - lia.
  - reflexivity.
  - lia.
  - vm_compute. congruence.
  - reflexivity.
  - reflexivity.
Defined.

(** C9 as stated fails on a request that is not an object: the guard of
    [buildQuery] answers it with the empty statement set, whose select
    field is [null]. *)
Lemma C9_select_prefix_counterexample :
  ~ (exists q s,
        snd (QueryBuilder.buildQuery (Samples.users None []) (Js.JStr "x")) = Js.Ok q
        /\ QueryBuilder.select q = Some s
        /\ String.prefix "SELECT" s = true).
Proof.
  intros (q & s & E & S & _). vm_compute in E. injection E as <-. discriminate S.
Qed.

(** C9, amended: for every configuration and every request of type
    [object] on which [buildQuery] returns, the select field of the
    returned statement set is a string that starts with SELECT; for a
    request that is not of type [object] the guard returns the statement
    set whose select field is [null]. *)
Theorem C9_select_prefix (self : QueryBuilder.Self) (rq : Js.JsVal) :
  (QueryBuilder.isObjectType rq = true ->
   forall q,
     snd (QueryBuilder.buildQuery self rq) = Js.Ok q ->
     exists s, QueryBuilder.select q = Some s /\ String.prefix "SELECT" s = true)
  /\ (QueryBuilder.isObjectType rq = false ->
      exists q,
        snd (QueryBuilder.buildQuery self rq) = Js.Ok q
        /\ QueryBuilder.select q = None).
Proof.
  split.
  - intros T q. destruct (Composition.isObjectType_cases rq T) as [-> | Obj].
    + discriminate.
    + rewrite (Composition.buildQuery_isObject self rq Obj). simpl snd.
      apply Composition.buildStatements_select.
  - intros T. rewrite (Composition.buildQuery_not_object self rq T).
    exists QueryBuilder.emptyQueries. split; reflexivity.
Qed.

Lemma C9_select_prefix_witness :
  (exists s,
      QueryBuilder.select
        {| QueryBuilder.changeDatabaseOrSchema := None;
           QueryBuilder.q_recordsTotal := Some "SELECT COUNT(id) FROM users";
           QueryBuilder.q_recordsFiltered := None;
           QueryBuilder.select :=
             Some "SELECT * FROM users ORDER BY name asc LIMIT 0, 10" |} = Some s
      /\ String.prefix "SELECT" s = true)
  /\ (exists q,
         snd (QueryBuilder.buildQuery (Samples.users None []) (Js.JStr "x")) = Js.Ok q
         /\ QueryBuilder.select q = None).
Proof.
  split.
  - apply (proj1 (C9_select_prefix (Samples.users None [])
                    (Samples.request "1" "" 0 10)));
      reflexivity.
  - apply (proj2 (C9_select_prefix (Samples.users None []) (Js.JStr "x"))).
    reflexivity.
Defined.

(** C2: the composition path throws, for every configuration.  [null]
    passes the guard [typeof requestQuery !== 'object'] and reading
    [requestQuery.search] throws; on the empty object
    [requestQuery.order[0]] throws (or, with a search allow-list,
    [requestQuery.search.value] does).  Values that are not of type
    [object], such as [undefined] or a string, do get the empty statement
    set. *)
Theorem C2_buildQuery_throws (self : QueryBuilder.Self) :
  snd (QueryBuilder.buildQuery self Js.JNull) = Js.Throw Js.TypeError
  /\ snd (QueryBuilder.buildQuery self (Js.JObj [])) = Js.Throw Js.TypeError
  /\ snd (QueryBuilder.buildQuery self Js.JUndef) = Js.Ok QueryBuilder.emptyQueries
  /\ snd (QueryBuilder.buildQuery self (Js.JStr "x")) = Js.Ok QueryBuilder.emptyQueries.
Proof.
  split; [reflexivity |]. split; [| split; reflexivity].
  rewrite Composition.buildQuery_isObject by reflexivity. simpl snd.
  apply (Composition.buildStatements_order_throws _ _ _ Js.TypeError).
  reflexivity.
Qed.

(** ** Translation of the response and the stored request *)

Module Translation.
Import Js QueryBuilder Props JsFacts.

Lemma field_draw_falsy (v : JsVal) :
  truthy v = false -> field v "draw" = JUndef.
Proof.
  unfold field.
  destruct v as [ | | b | n | s | l | ps]; simpl; intros H;
    reflexivity || discriminate.
Qed.

(** [parseResponse] never throws; the counts and the rows it returns come
    from its local [_queryResult], whatever [queryResult] holds, and the
    draw token from the stored request. *)
Lemma parseResponse_returns (self : Self) (queryResult : JsVal) :
  parseResponse self queryResult =
  Ok {| recordsFiltered := JNum (Int 0);
        recordsTotal := JNum (Int 0);
        draw := echoedDraw (oRequestQuery self);
        data := JNull |}.
Proof.
  unfold parseResponse, echoedDraw.
  destruct (truthy (oRequestQuery self)) eqn:T.
  - destruct (get_truthy _ "draw" T) as [d G]. unfold field. rewrite G. simpl.
    destruct d; simpl;
      destruct (isObject queryResult && _)%bool; reflexivity.
  - rewrite (field_draw_falsy _ T). simpl.
    destruct (isObject queryResult && _)%bool; reflexivity.
Qed.

End Translation.

(** C1: on the results of a table of 42 rows, an object with two fields,
    [parseResponse] returns zero for both counts and [null] for the rows:
    it reads them from its local [_queryResult], not from its argument. *)
Theorem C1_parseResponse_ignores_results (self : QueryBuilder.Self) :
  QueryBuilder.parseResponse self Samples.results_42 =
  Js.Ok {| QueryBuilder.recordsFiltered := Js.JNum (Js.Int 0);
           QueryBuilder.recordsTotal := Js.JNum (Js.Int 0);
           QueryBuilder.draw := Props.echoedDraw (QueryBuilder.oRequestQuery self);
           QueryBuilder.data := Js.JNull |}
  /\ QueryBuilder.extractResponseVal (Props.field Samples.results_42 "recordsTotal")
     = Js.Ok (Js.JNum (Js.Int 42)).
Proof.
  split; [apply Translation.parseResponse_returns | reflexivity].
Qed.

(** C10 as stated fails on a draw token that is a string but not a
    canonical numeral: ["5abc"] is echoed as 5, not as 0. *)
Lemma C10_draw_echo_counterexample :
  ~ (Props.canonicalNumeric "5abc" = false ->
     exists r,
       QueryBuilder.parseResponse
         (Samples.holding (Js.JObj [("draw", Js.JStr "5abc")])) Js.JUndef = Js.Ok r
       /\ QueryBuilder.draw r = Js.JNum (Js.Int 0)).
Proof.
  intros H. destruct (H eq_refl) as (r & E & D).
  vm_compute in E. injection E as <-. discriminate D.
Qed.

(** C10, amended: [parseResponse] echoes the draw token of the stored
    request as a number.  Whenever the stored [draw] is a string it is
    passed to [parseInt]: a canonical numeral of an integer is echoed as
    that integer (["5"] as 5), any other string as what [parseInt] reads at
    its start, which may be NaN.  (This is stated for integers up to
    [MAX_SAFE_INTEGER] in magnitude; [parseInt] rounds larger ones.)  When
    [draw] is absent or not a string the echoed draw is 0. *)
Theorem C10_draw_echo (self : QueryBuilder.Self) (queryResult : Js.JsVal) :
  exists r,
    QueryBuilder.parseResponse self queryResult = Js.Ok r
    /\ (forall s,
           Props.field (QueryBuilder.oRequestQuery self) "draw" = Js.JStr s ->
           Props.exactNum (Js.parseIntStr s) ->
           QueryBuilder.draw r = Js.JNum (Js.parseIntStr s))
    /\ (forall z,
           Z.abs z <= Js.MAX_SAFE_INTEGER ->
           Props.field (QueryBuilder.oRequestQuery self) "draw" = Js.JStr (Js.dec z) ->
           QueryBuilder.draw r = Js.JNum (Js.Int z))
    /\ (QueryBuilder.isString (Props.field (QueryBuilder.oRequestQuery self) "draw") = false ->
        QueryBuilder.draw r = Js.JNum (Js.Int 0)).
Proof.
  eexists. split; [apply Translation.parseResponse_returns |].
  simpl. unfold Props.echoedDraw. repeat split.
  - intros s -> _. reflexivity.
  - intros z _ ->. rewrite JsFacts.parseIntStr_dec. reflexivity.
  - destruct (Props.field _ "draw"); simpl; intros H;
      reflexivity || discriminate.
Qed.

(** [draw: "5"] is echoed as 5, an absent [draw] as 0, and ["5abc"] as 5. *)
Lemma C10_draw_echo_witness :
  (exists r,
      QueryBuilder.parseResponse
        (Samples.holding (Samples.request "5" "" 0 10)) Samples.results_42 = Js.Ok r
      /\ QueryBuilder.draw r = Js.JNum (Js.Int 5))
  /\ (exists r,
         QueryBuilder.parseResponse (Samples.holding (Js.JObj [])) Samples.results_42
         = Js.Ok r
         /\ QueryBuilder.draw r = Js.JNum (Js.Int 0))
  /\ (exists r,
         QueryBuilder.parseResponse
           (Samples.holding (Js.JObj [("draw", Js.JStr "5abc")])) Samples.results_42
         = Js.Ok r
         /\ QueryBuilder.draw r = Js.JNum (Js.Int 5)).
Proof.
  repeat split.
  - destruct (C10_draw_echo (Samples.holding (Samples.request "5" "" 0 10))
                Samples.results_42) as (r & E & _ & H & _).
    exists r. split; [exact E | apply (H 5); [vm_compute; congruence | reflexivity]].
  - destruct (C10_draw_echo (Samples.holding (Js.JObj [])) Samples.results_42)
      as (r & E & _ & _ & H).
    exists r. split; [exact E | apply H; reflexivity].
  - destruct (C10_draw_echo (Samples.holding (Js.JObj [("draw", Js.JStr "5abc")]))
                Samples.results_42) as (r & E & H & _).
    exists r. split; [exact E | apply (H "5abc"); [reflexivity | vm_compute; congruence]].
Defined.

(** C5 as stated fails: [buildQuery] stores the request on the instance,
    and a later [parseResponse] reads the draw token from it. *)
Lemma C5_stateless_counterexample :
  fst (QueryBuilder.buildQuery (Samples.users None []) (Samples.request "5" "" 0 10))
  <> Samples.users None []
  /\ QueryBuilder.parseResponse
       (fst (QueryBuilder.buildQuery (Samples.users None [])
               (Samples.request "5" "" 0 10))) Samples.results_42
     <> QueryBuilder.parseResponse (Samples.users None []) Samples.results_42.
Proof.
  split; intros H; vm_compute in H; discriminate H.
Qed.

(** C5, amended: the statement set [buildQuery] returns is a function of
    the configuration and the request only (it does not depend on the
    request the instance holds), and the call changes no field of the
    instance other than [oRequestQuery]; a request that is an array or a
    plain object is stored there, and a later [parseResponse] echoes the
    draw token of that stored request.  Of two successive calls, the
    second returns the statements it would return alone, and its request
    is the one the instance holds afterwards. *)
Theorem C5_stored_request (self : QueryBuilder.Self) (rq : Js.JsVal) :
  (forall held,
      snd (QueryBuilder.buildQuery (QueryBuilder.set_oRequestQuery self held) rq)
      = snd (QueryBuilder.buildQuery self rq))
  /\ (fst (QueryBuilder.buildQuery self rq) = self
      \/ fst (QueryBuilder.buildQuery self rq) = QueryBuilder.set_oRequestQuery self rq)
  /\ (Js.isObject rq = true ->
      fst (QueryBuilder.buildQuery self rq) = QueryBuilder.set_oRequestQuery self rq
      /\ (forall queryResult r,
             QueryBuilder.parseResponse (fst (QueryBuilder.buildQuery self rq)) queryResult
             = Js.Ok r ->
             QueryBuilder.draw r = Props.echoedDraw rq)
      /\ (forall rq2,
             Js.isObject rq2 = true ->
             snd (QueryBuilder.buildQuery (fst (QueryBuilder.buildQuery self rq)) rq2)
             = snd (QueryBuilder.buildQuery self rq2)
             /\ fst (QueryBuilder.buildQuery (fst (QueryBuilder.buildQuery self rq)) rq2)
                = QueryBuilder.set_oRequestQuery self rq2)).
Proof.
  assert (Indep : forall held r0,
             snd (QueryBuilder.buildQuery (QueryBuilder.set_oRequestQuery self held) r0)
             = snd (QueryBuilder.buildQuery self r0)).
  { intros held r0. destruct (QueryBuilder.isObjectType r0) eqn:T.
    - destruct (Composition.isObjectType_cases r0 T) as [-> | Obj];
        [reflexivity |].
      rewrite !Composition.buildQuery_isObject by exact Obj. reflexivity.
    - rewrite !Composition.buildQuery_not_object by exact T. reflexivity. }
  split; [intros held; apply Indep |]. split.
  - destruct (QueryBuilder.isObjectType rq) eqn:T.
    + destruct (Composition.isObjectType_cases rq T) as [-> | Obj];
        [left; reflexivity |].
      right. rewrite Composition.buildQuery_isObject by exact Obj. reflexivity.
    + left. rewrite Composition.buildQuery_not_object by exact T. reflexivity.
  - intros Obj. rewrite Composition.buildQuery_isObject by exact Obj.
    simpl fst. repeat split.
    + intros queryResult r. rewrite Translation.parseResponse_returns.
      intros [= <-]. reflexivity.
    + apply Indep.
    + rewrite Composition.buildQuery_isObject by assumption. reflexivity.
Qed.

(** After [buildQuery] on a request with [draw: "5"], the instance holds
    that request and [parseResponse] echoes 5. *)
Lemma C5_stored_request_witness :
  fst (QueryBuilder.buildQuery (Samples.users None []) (Samples.request "5" "" 0 10))
  = Samples.holding (Samples.request "5" "" 0 10)
  /\ forall queryResult r,
       QueryBuilder.parseResponse
         (fst (QueryBuilder.buildQuery (Samples.users None [])
                 (Samples.request "5" "" 0 10))) queryResult = Js.Ok r ->
       QueryBuilder.draw r = Js.JNum (Js.Int 5).
Proof.
  destruct (C5_stored_request (Samples.users None []) (Samples.request "5" "" 0 10))
    as (_ & _ & H).
  destruct (H eq_refl) as (S & D & _).
  split; [exact S | exact D].
Defined.

(** ** The sanitizer *)

Module Sanitizer.
Import Js QueryBuilder Props.

(** The class of the regular expression and the cases of the callback
    cover the same characters. *)
Lemma escape_char (c : ascii) :
  (if inEscapeClass c then toStr (escapeChar c) else String c EmptyString)
  = sqlEscape c.
Proof.
  destruct c as [[] [] [] [] [] [] [] []]; reflexivity.
Qed.

Lemma replaceEscapes_table (s : string) :
  replaceEscapes s = escapeAll sqlEscape s.
Proof.
  induction s as [| c s IH]; simpl; [reflexivity |].
  rewrite escape_char, IH. reflexivity.
Qed.

Lemma truthy_string (s : string) :
  truthy (JStr s) = negb (Nat.ltb (String.length s) 1).
Proof. destruct s; reflexivity. Qed.

End Sanitizer.

(** C6 as stated fails on the control characters: a line feed is not
    prefixed with a backslash but replaced by a backslash and the letter
    [n]. *)
Lemma C6_sanitize_counterexample :
  QueryBuilder.sanitize (Js.JStr (String (ascii_of_nat 10) "")) None
  <> Js.JStr (Props.escapeAll Props.prefixEscape (String (ascii_of_nat 10) "")).
Proof.
  vm_compute. discriminate.
Qed.

(** C6, amended: [sanitize] with one argument returns every falsy value
    (the empty string among them) unchanged; [null] for every truthy value
    that is not a string and for every string longer than 256 characters;
    and for every other string the string in which NUL, backspace, TAB,
    ctrl-Z, LF and CR are replaced by a backslash and the letter 0, b, t,
    z, n and r, the double quote, the single quote, the backslash and the
    percent sign are prefixed with a backslash, and all other characters
    are unchanged. *)
Theorem C6_sanitize (v : Js.JsVal) :
  (Js.truthy v = false -> QueryBuilder.sanitize v None = v)
  /\ (Js.truthy v = true -> QueryBuilder.isString v = false ->
      QueryBuilder.sanitize v None = Js.JNull)
  /\ (forall s, v = Js.JStr s -> (256 < String.length s)%nat ->
        QueryBuilder.sanitize v None = Js.JNull)
  /\ (forall s, v = Js.JStr s -> (1 <= String.length s <= 256)%nat ->
        QueryBuilder.sanitize v None = Js.JStr (Props.escapeAll Props.sqlEscape s)).
Proof.
  repeat split.
  - intros F. destruct v; simpl in *; try rewrite F; try reflexivity;
      discriminate.
  - intros T S. destruct v; simpl in *; try rewrite T; try reflexivity;
      discriminate.
  - intros s -> L. unfold QueryBuilder.sanitize.
    rewrite Sanitizer.truthy_string, Bool.negb_involutive, Bool.orb_diag.
    replace (Nat.ltb (String.length s) 1) with false
      by (symmetry; apply Nat.ltb_ge; lia).
    replace (Nat.ltb 256 (String.length s)) with true
      by (symmetry; apply Nat.ltb_lt; lia).
    reflexivity.
  - intros s -> [L U]. unfold QueryBuilder.sanitize.
    rewrite Sanitizer.truthy_string, Bool.negb_involutive, Bool.orb_diag.
    replace (Nat.ltb (String.length s) 1) with false
      by (symmetry; apply Nat.ltb_ge; lia).
    replace (Nat.ltb 256 (String.length s)) with false
      by (symmetry; apply Nat.ltb_ge; lia).
    rewrite Sanitizer.replaceEscapes_table. reflexivity.
Qed.

Lemma C6_sanitize_witness :
  QueryBuilder.sanitize (Js.JStr "") None = Js.JStr ""
  /\ QueryBuilder.sanitize (Js.JNum (Js.Int 5)) None = Js.JNull
  /\ QueryBuilder.sanitize (Js.JStr "O'Neil 100%") None = Js.JStr "O\'Neil 100\%".
Proof.
  split; [| split].
  - apply (C6_sanitize (Js.JStr "")). reflexivity.
  - apply (C6_sanitize (Js.JNum (Js.Int 5))); reflexivity.
  - destruct (C6_sanitize (Js.JStr "O'Neil 100%")) as (_ & _ & _ & H).
    apply (H "O'Neil 100%"); [reflexivity | simpl; lia].
Defined.

(** ** The WHERE clause *)

Module Predicates.
Import Js QueryBuilder Props JsFacts.

(** With a date column the date predicate is as documented. *)
Lemma buildDatePartial_named (self : Self) (col : string) :
  sDateColumnName self = Some col -> col <> "" ->
  buildDatePartial self =
  match dateFrom self, dateTo self with
  | Some f, Some t =>
      Some (col ++ " BETWEEN '" ++ toISOString f ++ "' AND '" ++ toISOString t ++ "'")
  | Some f, None => Some (col ++ " >= '" ++ toISOString f ++ "'")
  | None, Some t => Some (col ++ " <= '" ++ toISOString t ++ "'")
  | None, None => None
  end.
Proof.
  intros E N. unfold buildDatePartial. rewrite E. simpl.
  destruct col; [congruence |]. simpl.
  destruct (dateFrom self), (dateTo self); reflexivity.
Qed.

(** Without any date bound there is no date predicate. *)
Lemma buildDatePartial_unbounded (self : Self) :
  dateFrom self = None -> dateTo self = None -> buildDatePartial self = None.
Proof.
  intros F T. unfold buildDatePartial. rewrite F, T.
  rewrite Bool.andb_false_r. reflexivity.
Qed.

Lemma eachPush_flat (f : JsVal -> Res (list string)) (g : JsVal -> list string)
    (items : list JsVal) :
  (forall x, In x items -> f x = Ok (g x)) ->
  eachPush f items = Ok (flat_map g items).
Proof.
  induction items as [| x xs IH]; intros H; simpl; [reflexivity |].
  rewrite (H x (or_introl eq_refl)). simpl.
  rewrite IH by (intros y Hy; apply H; right; exact Hy). reflexivity.
Qed.

Lemma flat_entryPredicates (self : Self) (searchVal : JsVal) (names : list JsVal) :
  flat_map (entryPredicates self searchVal) names
  = groupPredicates self names searchVal.
Proof.
  unfold groupPredicates, usableNames, entryPredicates.
  induction names as [| n ns IH]; simpl.
  - destruct (truthy searchVal); reflexivity.
  - rewrite IH. destruct (truthy searchVal), (truthy (sanitize n None));
      reflexivity.
Qed.

(** The callback on an allow-listed column. *)
Lemma searchEntry_custom (self : Self) (rq term column : JsVal) :
  (s <- get rq "search" ;; get s "value") = Ok term ->
  searchEntry self rq true true column
  = Ok (entryPredicates self (sanitize term None) column).
Proof.
  intros G. unfold searchEntry, entryPredicates, searchPredicate, isPostgres.
  simpl. rewrite G. simpl.
  destruct (truthy (sanitize column None) && truthy (sanitize term None))%bool;
    reflexivity.
Qed.

(** The callback of the global search on a column of the request. *)
Lemma searchEntry_request (self : Self) (rq term column : JsVal) :
  (s <- get rq "search" ;; get s "value") = Ok term ->
  column <> JUndef -> column <> JNull ->
  searchEntry self rq true false column
  = Ok (if strictEqStr (field column "searchable") "true"
        then entryPredicates self (sanitize term None) (field column "name")
        else []).
Proof.
  intros G N1 N2. unfold searchEntry, entryPredicates, searchPredicate, isPostgres, field.
  destruct (get_total column "searchable" N1 N2) as [x ->].
  destruct (get_total column "name" N1 N2) as [y ->]. simpl.
  destruct (strictEqStr x "true"); [| reflexivity].
  rewrite G. simpl.
  destruct (truthy (sanitize y None) && truthy (sanitize term None))%bool;
    reflexivity.
Qed.

Lemma flat_searchable (self : Self) (searchVal : JsVal) (cols : list JsVal) :
  flat_map (fun c => if strictEqStr (field c "searchable") "true"
                     then entryPredicates self searchVal (field c "name")
                     else []) cols
  = flat_map (entryPredicates self searchVal) (searchableNames cols).
Proof.
  unfold searchableNames.
  induction cols as [| c cs IH]; simpl; [reflexivity |].
  rewrite IH. destruct (strictEqStr (field c "searchable") "true"); reflexivity.
Qed.

(** No predicate is pushed for an empty search value. *)
Lemma groupPredicates_nonempty (self : Self) (names : list JsVal) (sv : JsVal) :
  groupPredicates self names sv <> [] -> truthy sv = true.
Proof.
  unfold groupPredicates. destruct (truthy sv); [reflexivity | congruence].
Qed.

End Predicates.

(** C3 as stated fails when the allow-list is empty: the global search
    group is then formed over the searchable columns of the request. *)
Lemma C3_global_group_counterexample :
  ~ (QueryBuilder.aSearchColumns (Samples.users None []) = [] ->
     QueryBuilder.buildSearchArray (Samples.users None [])
       (Samples.request "1" "ann" 0 10) true = Js.Ok []).
Proof.
  intros H. specialize (H eq_refl). vm_compute in H. discriminate H.
Qed.

(** C3, amended: for a request whose global search value can be read, the
    predicates of the global (OR-joined) group are formed only when that
    value sanitizes to a non-empty string.  With a non-empty allow-list
    [searchColumns] they range over exactly the allow-listed columns whose
    sanitized name is non-empty; with an absent or empty allow-list they
    range over the columns of the request marked [searchable === 'true']
    whose sanitized name is non-empty.  The group is the parenthesised
    OR-join of these predicates and is left out when there is none. *)
Theorem C3_global_group (self : QueryBuilder.Self) (rq term : Js.JsVal) :
  Js.bind (Js.get rq "search") (fun s => Js.get s "value") = Js.Ok term ->
  (QueryBuilder.aSearchColumns self <> [] ->
   QueryBuilder.buildSearchArray self rq true =
   Js.Ok (Props.groupPredicates self
            (map Js.JStr (QueryBuilder.aSearchColumns self))
            (QueryBuilder.sanitize term None)))
  /\ (QueryBuilder.aSearchColumns self = [] ->
      Forall (fun c => c <> Js.JUndef /\ c <> Js.JNull)
        (Js.eachItems (Props.field rq "columns")) ->
      QueryBuilder.buildSearchArray self rq true =
      Js.Ok (Props.groupPredicates self
               (Props.searchableNames (Js.eachItems (Props.field rq "columns")))
               (QueryBuilder.sanitize term None)))
  /\ (forall cs gs,
         QueryBuilder.buildSearchArray self rq false = Js.Ok cs ->
         QueryBuilder.buildSearchArray self rq true = Js.Ok gs ->
         QueryBuilder.buildSearchPartial self rq =
         Js.Ok (String.concat " AND "
                  (Props.group " AND " cs ++ Props.group " OR " gs)%list)).
Proof.
  intros G. split; [| split].
  - intros N. unfold QueryBuilder.buildSearchArray.
    destruct (QueryBuilder.aSearchColumns self) as [| c cs] eqn:E;
      [congruence |].
    cbn [QueryBuilder.isEmptyList negb andb Js.bind].
    rewrite (Predicates.eachPush_flat _
               (Props.entryPredicates self (QueryBuilder.sanitize term None)))
      by (intros x _; apply Predicates.searchEntry_custom; exact G).
    rewrite Predicates.flat_entryPredicates. reflexivity.
  - intros E F. unfold QueryBuilder.buildSearchArray. rewrite E.
    cbn [QueryBuilder.isEmptyList negb andb].
    assert (R : Js.get rq "columns" = Js.Ok (Props.field rq "columns")).
    { assert (N1 : rq <> Js.JUndef) by (intros ->; discriminate G).
      assert (N2 : rq <> Js.JNull) by (intros ->; discriminate G).
      unfold Props.field.
      destruct (JsFacts.get_total rq "columns" N1 N2) as [x ->]. reflexivity. }
    rewrite R. cbn [Js.bind].
    rewrite (Predicates.eachPush_flat _
               (fun c => if Js.strictEqStr (Props.field c "searchable") "true"
                         then Props.entryPredicates self
                                (QueryBuilder.sanitize term None)
                                (Props.field c "name")
                         else [])).
    + rewrite Predicates.flat_searchable, Predicates.flat_entryPredicates.
      reflexivity.
    + intros x Hx. rewrite Forall_forall in F. destruct (F x Hx) as [N1 N2].
      apply Predicates.searchEntry_request; assumption.
  - intros cs gs Hc Hg. unfold QueryBuilder.buildSearchPartial.
    rewrite Hc, Hg. simpl. destruct cs, gs; reflexivity.
Qed.

(** On postgres with the allow-list [name], [email] and the search term
    [ann], the global group holds one ILIKE predicate per allow-listed
    column; without an allow-list it holds one predicate for the
    searchable column of the request. *)
Lemma C3_global_group_witness :
  QueryBuilder.buildSearchArray (Samples.users (Some "postgres") ["name"; "email"])
    (Samples.request "1" "ann" 0 10) true
  = Js.Ok ["CAST(name as text) ILIKE '%ann%'"; "CAST(email as text) ILIKE '%ann%'"]
  /\ QueryBuilder.buildSearchArray (Samples.users None [])
       (Samples.request "1" "ann" 0 10) true
     = Js.Ok ["name LIKE '%ann%'"].
Proof.
  split.
  - destruct (C3_global_group (Samples.users (Some "postgres") ["name"; "email"])
                (Samples.request "1" "ann" 0 10) (Js.JStr "ann") eq_refl)
      as (H & _).
    apply H. discriminate.
  - destruct (C3_global_group (Samples.users None [])
                (Samples.request "1" "ann" 0 10) (Js.JStr "ann") eq_refl)
      as (_ & H & _).
    apply H; [reflexivity |].
    repeat constructor; discriminate.
Defined.

(** C4: without a date column but with an upper bound [dateTo], a date
    predicate is emitted all the same, on the column name [undefined]:
    the condition [sDateColumnName && dateFrom || dateTo] holds whenever
    [dateTo] is set. *)
Theorem C4_date_without_column (self : QueryBuilder.Self) (t : QueryBuilder.Date) :
  QueryBuilder.sDateColumnName self = None ->
  QueryBuilder.dateTo self = Some t ->
  QueryBuilder.buildDatePartial self =
  Some (match QueryBuilder.dateFrom self with
        | Some f =>
            "undefined BETWEEN '" ++ QueryBuilder.toISOString f ++ "' AND '"
            ++ QueryBuilder.toISOString t ++ "'"
        | None => "undefined <= '" ++ QueryBuilder.toISOString t ++ "'"
        end).
Proof.
  intros C T. unfold QueryBuilder.buildDatePartial. rewrite C, T. simpl.
  destruct (QueryBuilder.dateFrom self); reflexivity.
Qed.

Lemma C4_date_without_column_witness :
  QueryBuilder.buildDatePartial Samples.untilNewYear
  = Some "undefined <= '2024-01-01T00:00:00.000Z'"
  /\ QueryBuilder.buildWherePartial Samples.untilNewYear (Samples.request "1" "" 0 10)
     = Js.Ok " WHERE (undefined <= '2024-01-01T00:00:00.000Z')".
Proof.
  split.
  - apply (C4_date_without_column Samples.untilNewYear Samples.newYear);
      reflexivity.
  - reflexivity.
Defined.

(** ** Scenarios

    The builder run on the sample requests. *)

Module Scenarios.
Import Js QueryBuilder Samples.

Example end_to_end_postgres :
  snd (buildQuery (users (Some "postgres") ["name"; "email"]) annRequest)
  = Ok {| changeDatabaseOrSchema := None;
          q_recordsTotal :=
            Some "SELECT COUNT(id) FROM users WHERE ((CAST(name as text) ILIKE '%ann%' OR CAST(email as text) ILIKE '%ann%'))";
          q_recordsFiltered :=
            Some "SELECT COUNT(id) FROM users WHERE ((CAST(name as text) ILIKE '%ann%' OR CAST(email as text) ILIKE '%ann%'))";
          select :=
            Some "SELECT * FROM users WHERE ((CAST(name as text) ILIKE '%ann%' OR CAST(email as text) ILIKE '%ann%')) ORDER BY name asc OFFSET 0 LIMIT 10" |}.
Proof. reflexivity. Qed.

Example order_by_age_desc : buildOrderingPartial byAgeDesc = Ok " ORDER BY age desc".
Proof. reflexivity. Qed.

Example where_without_predicates :
  buildWherePartial (users None []) (request "1" "" 0 10) = Ok "".
Proof. reflexivity. Qed.

Example limit_from_text :
  buildLimitPartial (users None []) (page_text "10" "20") = Ok " LIMIT 10, 20"
  /\ buildLimitPartial (users None []) (page_text " 10px" "20.5") = Ok " LIMIT 10, 20"
  /\ buildLimitPartial (users None []) (page_text "10" "-1") = Ok " "
  /\ buildLimitPartial (users None []) (page_text "10" "0") = Ok " LIMIT 10, 100"
  /\ buildLimitPartial (users None []) (page_text "-1" "20") = Ok ""
  /\ buildLimitPartial (users None []) (page_text "ten" "20") = Ok "".
Proof. repeat split; reflexivity. Qed.

Example conversion_throws :
  buildLimitPartial (users None [])
    (JObj [("start", JObj [("toString", JNum (Int 1))]); ("length", JNum (Int 5))])
  = Throw TypeError
  /\ buildLimitPartial (users None [])
       (JObj [("start", JNum (Int 5)); ("length", JObj [("toString", JNum (Int 1))])])
     = Throw TypeError
  /\ buildLimitPartial (users (Some "oracle") [])
       (JObj [("start", JObj [("toString", JNum (Int 1))]); ("length", JNum (Int 5))])
     = Ok ""
  /\ buildLimitPartial (users None [])
       (JObj [("start", JNum (Int 5)); ("length", JObj [("valueOf", JNum (Int 1))])])
     = Ok " LIMIT 5, 100".
Proof. repeat split; reflexivity. Qed.

Example schema_statement :
  buildSetDatabaseOrSchemaStatement
    {| sTableName := Some "users"; sCountColumnName := None;
       sDatabaseOrSchema := Some "hr"; aSearchColumns := [];
       sSelectSql := None; sFromSql := None; sWhereAndSql := None;
       sDateColumnName := None; dateFrom := None; dateTo := None;
       oRequestQuery := JUndef; sAjaxDataProp := "data";
       dbType := Some "oracle" |}
  = Some "ALTER SESSION SET CURRENT_SCHEMA = hr".
Proof. reflexivity. Qed.

End Scenarios.

(** ** Further properties of the sanitizer *)

Module SanitizerFacts.
Import Js QueryBuilder Props.

Lemma replaceEscapes_cons (c : ascii) (s : string) :
  replaceEscapes (String c s) = sqlEscape c ++ replaceEscapes s.
Proof.
  simpl. rewrite Sanitizer.escape_char. reflexivity.
Qed.

(** What [sanitize] returns on a string, for any limit. *)
Lemma sanitize_string (s : string) (len : option nat) :
  sanitize (JStr s) len = JNull
  \/ sanitize (JStr s) len = JStr (replaceEscapes s).
Proof.
  unfold sanitize. rewrite Sanitizer.truthy_string, Bool.negb_involutive, Bool.orb_diag.
  destruct (Nat.ltb (String.length s) 1) eqn:L.
  - right. destruct s; [reflexivity | discriminate].
  - destruct (Nat.ltb _ (String.length s)); auto.
Qed.

Lemma sanitize_accepts (s : string) :
  (String.length s <= 256)%nat ->
  sanitize (JStr s) None = JStr (replaceEscapes s).
Proof.
  intros L. unfold sanitize.
  rewrite Sanitizer.truthy_string, Bool.negb_involutive, Bool.orb_diag.
  destruct (Nat.ltb (String.length s) 1) eqn:E.
  - destruct s; [reflexivity | discriminate].
  - replace (Nat.ltb 256 (String.length s)) with false
      by (symmetry; apply Nat.ltb_ge; exact L).
    reflexivity.
Qed.

Lemma sanitize_rejects (s : string) :
  (256 < String.length s)%nat -> sanitize (JStr s) None = JNull.
Proof.
  intros L. unfold sanitize.
  rewrite Sanitizer.truthy_string, Bool.negb_involutive, Bool.orb_diag.
  replace (Nat.ltb (String.length s) 1) with false
    by (symmetry; apply Nat.ltb_ge; lia).
  replace (Nat.ltb 256 (String.length s)) with true
    by (symmetry; apply Nat.ltb_lt; exact L).
  reflexivity.
Qed.

Lemma wellEscaped_step (c : ascii) (t : string) :
  wellEscaped (sqlEscape c ++ t) = wellEscaped t.
Proof.
  destruct c as [[] [] [] [] [] [] [] []]; reflexivity.
Qed.

Lemma wellEscaped_replaceEscapes (s : string) :
  wellEscaped (replaceEscapes s) = true.
Proof.
  induction s as [| c s IH]; [reflexivity |].
  rewrite replaceEscapes_cons, wellEscaped_step. exact IH.
Qed.

Lemma unescape_step (c : ascii) (t : string) :
  unescape (sqlEscape c ++ t) = String c (unescape t).
Proof.
  destruct c as [[] [] [] [] [] [] [] []]; reflexivity.
Qed.

Lemma unescape_replaceEscapes (s : string) : unescape (replaceEscapes s) = s.
Proof.
  induction s as [| c s IH]; [reflexivity |].
  rewrite replaceEscapes_cons, unescape_step, IH. reflexivity.
Qed.

Lemma length_append (a b : string) :
  String.length (a ++ b) = (String.length a + String.length b)%nat.
Proof.
  induction a as [| x a IH]; simpl; [reflexivity | now rewrite IH].
Qed.

Lemma length_sqlEscape (c : ascii) :
  String.length (sqlEscape c) = (1 + if inEscapeClass c then 1 else 0)%nat.
Proof.
  destruct c as [[] [] [] [] [] [] [] []]; reflexivity.
Qed.

Lemma length_replaceEscapes (s : string) :
  String.length (replaceEscapes s) = (String.length s + countEscaped s)%nat.
Proof.
  induction s as [| c s IH]; [reflexivity |].
  rewrite replaceEscapes_cons, length_append, length_sqlEscape, IH. simpl. lia.
Qed.

Lemma countEscaped_le (s : string) : (countEscaped s <= String.length s)%nat.
Proof.
  induction s as [| c s IH]; simpl; [lia |].
  destruct (inEscapeClass c); lia.
Qed.

Lemma replaceEscapes_clean (s : string) :
  countEscaped s = 0%nat -> replaceEscapes s = s.
Proof.
  induction s as [| c s IH]; simpl; [reflexivity |].
  destruct (inEscapeClass c); simpl; [discriminate |].
  intros H. rewrite IH by exact H. reflexivity.
Qed.

End SanitizerFacts.

(** X1: whatever string [sanitize] returns for a string, with any limit,
    is well escaped: every quote, percent sign, control character of the
    class and backslash in it belongs to an escape pair opened by a
    backslash. *)
Theorem X1_sanitize_well_escaped (s out : string) (len : option nat) :
  QueryBuilder.sanitize (Js.JStr s) len = Js.JStr out ->
  Props.wellEscaped out = true.
Proof.
  destruct (SanitizerFacts.sanitize_string s len) as [E | E]; rewrite E;
    [discriminate |].
  intros [= <-]. apply SanitizerFacts.wellEscaped_replaceEscapes.
Qed.

Lemma X1_sanitize_well_escaped_witness :
  Props.wellEscaped "x\' OR 1=1 --" = true.
Proof.
  apply (X1_sanitize_well_escaped "x' OR 1=1 --" "x\' OR 1=1 --" None).
  reflexivity.
Defined.

(** X2: a string of at most 256 characters is returned unchanged by
    [sanitize] exactly when it holds no character of the escape class. *)
Theorem X2_sanitize_unchanged (s : string) :
  (String.length s <= 256)%nat ->
  (QueryBuilder.sanitize (Js.JStr s) None = Js.JStr s
   <-> Props.countEscaped s = 0%nat).
Proof.
  intros L. rewrite (SanitizerFacts.sanitize_accepts s L). split.
  - intros [= E]. pose proof (SanitizerFacts.length_replaceEscapes s) as H.
    rewrite E in H. lia.
  - intros C. rewrite SanitizerFacts.replaceEscapes_clean by exact C.
    reflexivity.
Qed.

Lemma X2_sanitize_unchanged_witness :
  QueryBuilder.sanitize (Js.JStr "ann smith") None = Js.JStr "ann smith"
  <-> Props.countEscaped "ann smith" = 0%nat.
Proof.
  apply (X2_sanitize_unchanged "ann smith"). simpl. lia.
Defined.

(** X3: on the strings it accepts, [sanitize] loses nothing: reading the
    escape pairs back gives the input, so two different accepted strings
    never have the same sanitized text. *)
Theorem X3_sanitize_reversible (s1 s2 : string) :
  (String.length s1 <= 256)%nat -> (String.length s2 <= 256)%nat ->
  QueryBuilder.sanitize (Js.JStr s1) None
  = Js.JStr (QueryBuilder.replaceEscapes s1)
  /\ Props.unescape (QueryBuilder.replaceEscapes s1) = s1
  /\ (QueryBuilder.sanitize (Js.JStr s1) None = QueryBuilder.sanitize (Js.JStr s2) None ->
      s1 = s2).
Proof.
  intros L1 L2. split; [apply SanitizerFacts.sanitize_accepts; exact L1 |].
  split; [apply SanitizerFacts.unescape_replaceEscapes |].
  rewrite !SanitizerFacts.sanitize_accepts by assumption. intros [= E].
  rewrite <- (SanitizerFacts.unescape_replaceEscapes s1), E.
  apply SanitizerFacts.unescape_replaceEscapes.
Qed.

Lemma X3_sanitize_reversible_witness :
  QueryBuilder.sanitize (Js.JStr "50%") None = Js.JStr "50\%"
  /\ Props.unescape "50\%" = "50%"
  /\ (QueryBuilder.sanitize (Js.JStr "50%") None
      = QueryBuilder.sanitize (Js.JStr "50\%") None -> "50%" = "50\%").
Proof.
  apply (X3_sanitize_reversible "50%" "50\%"); simpl; lia.
Defined.

(** X4: the limit of [sanitize] bounds its input, not its output: the
    returned string is longer than the input by one character for each
    character of the escape class, so it can reach twice the input's
    length. *)
Theorem X4_sanitize_length (s out : string) (len : option nat) :
  QueryBuilder.sanitize (Js.JStr s) len = Js.JStr out ->
  String.length out = (String.length s + Props.countEscaped s)%nat
  /\ (String.length s <= String.length out <= 2 * String.length s)%nat.
Proof.
  destruct (SanitizerFacts.sanitize_string s len) as [E | E]; rewrite E;
    [discriminate |].
  intros [= <-]. pose proof (SanitizerFacts.length_replaceEscapes s) as H.
  pose proof (SanitizerFacts.countEscaped_le s). split; [exact H | lia].
Qed.

Lemma X4_sanitize_length_witness :
  String.length "\'\'\'" = (String.length "'''" + Props.countEscaped "'''")%nat
  /\ (String.length "'''" <= String.length "\'\'\'" <= 2 * String.length "'''")%nat.
Proof.
  apply (X4_sanitize_length "'''" "\'\'\'" None). reflexivity.
Defined.

(** X5: the optional limit of [sanitize]: a limit of 0 is replaced by the
    default 256, and with a positive limit [n] a non-empty string is
    rejected exactly when it is longer than [n]. *)
Theorem X5_sanitize_limit (v : Js.JsVal) (s : string) (n : nat) :
  QueryBuilder.sanitize v (Some 0%nat) = QueryBuilder.sanitize v None
  /\ ((0 < n)%nat -> (0 < String.length s)%nat ->
      (QueryBuilder.sanitize (Js.JStr s) (Some n) = Js.JNull
       <-> (n < String.length s)%nat)).
Proof.
  split; [reflexivity |]. intros N L. unfold QueryBuilder.sanitize.
  rewrite Sanitizer.truthy_string, Bool.negb_involutive, Bool.orb_diag.
  replace (Nat.ltb (String.length s) 1) with false
    by (symmetry; apply Nat.ltb_ge; lia).
  destruct n as [| n]; [lia |].
  destruct (Nat.ltb (S n) (String.length s)) eqn:E.
  - apply Nat.ltb_lt in E. split; [intros _; exact E | reflexivity].
  - apply Nat.ltb_ge in E. split; [discriminate | lia].
Qed.

Lemma X5_sanitize_limit_witness :
  QueryBuilder.sanitize (Js.JStr "abcd") (Some 0%nat)
  = QueryBuilder.sanitize (Js.JStr "abcd") None
  /\ (QueryBuilder.sanitize (Js.JStr "abcd") (Some 3%nat) = Js.JNull
      <-> (3 < String.length "abcd")%nat).
Proof.
  destruct (X5_sanitize_limit (Js.JStr "abcd") "abcd" 3) as [H0 H].
  split; [exact H0 | apply H; simpl; lia].
Defined.

(** ** Indices, rows and the ORDER BY clause *)

Module IndexFacts.
Import Js QueryBuilder Props JsFacts.

Lemma digit_not_l (c : ascii) : isDigit c = true -> Ascii.eqb c "l" = false.
Proof.
  destruct c as [[] [] [] [] [] [] [] []]; vm_compute; congruence.
Qed.

(** A decimal numeral is not the property name [length]. *)
Lemma dec_not_length (z : Z) : String.eqb (dec z) "length" = false.
Proof.
  unfold dec. pose proof (to_int_nonnil z) as Hn.
  destruct (Z.to_int z) as [d | d]; simpl.
  - destruct (numeral_head d Hn) as (c & s & E & Hc).
    replace (NilZero.string_of_uint d) with (NilEmpty.string_of_uint d)
      by (destruct d; congruence || reflexivity).
    rewrite E. simpl. rewrite (digit_not_l c Hc). reflexivity.
  - reflexivity.
Qed.

Lemma arrayIndex_dec (z : Z) :
  arrayIndex (dec z) = if 0 <=? z then Some (Z.to_nat z) else None.
Proof.
  unfold arrayIndex. rewrite parseIntStr_dec, String.eqb_refl.
  rewrite Bool.andb_true_r. reflexivity.
Qed.

(** Reading an array at a number: the element, or [undefined] outside the
    array. *)
Lemma getv_array (l : list JsVal) (z : Z) :
  getv (JArr l) (JNum (Int z))
  = Ok (if 0 <=? z then elemAt l (Z.to_nat z) else JUndef).
Proof.
  unfold getv, get. simpl toStr.
  rewrite dec_not_length, arrayIndex_dec. destruct (0 <=? z); reflexivity.
Qed.

Lemma elemAt_outside (l : list JsVal) (n : nat) :
  (List.length l <= n)%nat -> elemAt l n = JUndef.
Proof.
  intros H. unfold elemAt.
  rewrite (proj2 (nth_error_None l n) H). reflexivity.
Qed.

Lemma field_get_ok (v x : JsVal) (k : string) : get v k = Ok x -> field v k = x.
Proof. intros H. unfold field. rewrite H. reflexivity. Qed.

Lemma get_field (v : JsVal) (k : string) :
  v <> JUndef -> v <> JNull -> get v k = Ok (field v k).
Proof.
  intros N1 N2. unfold field. destruct (get_total v k N1 N2) as [x ->].
  reflexivity.
Qed.

Lemma getvM_convertible (v key : JsVal) :
  convertible key = true -> getvM v key = getv v key.
Proof.
  intros C. unfold getvM, getv, toStringM. rewrite C. reflexivity.
Qed.

Lemma printable_convertible (v : JsVal) : printable v = true -> convertible v = true.
Proof.
  revert v. fix IH 1. intros [ | | b | n | s | l | ps]; try reflexivity.
  - simpl. induction l as [| x l IHl]; simpl; [reflexivity |].
    intros H. apply Bool.andb_true_iff in H. destruct H as [H1 H2].
    rewrite (IH x H1). apply IHl. exact H2.
  - simpl. intros H. exact H.
Qed.

(** The loop of [buildOrderingPartial] on an order entry and its column. *)
Lemma orderEntry_clause (rq o cols col : JsVal) :
  o <> JUndef -> o <> JNull ->
  get rq "columns" = Ok cols ->
  convertible (field o "column") = true ->
  getv cols (field o "column") = Ok col ->
  col <> JUndef -> col <> JNull ->
  convertible (field col "name") = true ->
  convertible (field o "dir") = true ->
  orderEntry rq o
  = Ok (if (strictEqStr (field col "orderable") "true"
            && truthy (field col "name"))%bool
        then [toStr (field col "name") ++ " " ++ toStr (field o "dir")]
        else []).
Proof.
  intros O1 O2 C K G N1 N2 Cn Cd. unfold orderEntry.
  rewrite C, (get_field o "column" O1 O2). cbn [bind].
  rewrite (getvM_convertible cols _ K), G. cbn [bind].
  rewrite (get_field col "orderable" N1 N2), (get_field col "name" N1 N2),
          (get_field o "dir" O1 O2).
  cbn [bind]. unfold toStringM. rewrite Cn, Cd. cbn [bind].
  destruct (strictEqStr (field col "orderable") "true"); [| reflexivity].
  destruct (truthy (field col "name")); reflexivity.
Qed.

Lemma orderEntry_no_column (rq o cols : JsVal) :
  o <> JUndef -> o <> JNull ->
  get rq "columns" = Ok cols ->
  convertible (field o "column") = true ->
  getv cols (field o "column") = Ok JUndef ->
  orderEntry rq o = Throw TypeError.
Proof.
  intros O1 O2 C K G. unfold orderEntry.
  rewrite C, (get_field o "column" O1 O2). cbn [bind].
  rewrite (getvM_convertible cols _ K), G. reflexivity.
Qed.

End IndexFacts.

(** X6: [extractResponseVal] never throws.  On an array whose first row is
    an array or a plain object it returns the first value of that row
    (for a plain object with a first property [k: v], the value [v]); on
    anything else, an empty array and a first row without values among
    them, it returns [undefined]. *)
Theorem X6_extractResponseVal (res : Js.JsVal) :
  QueryBuilder.extractResponseVal res =
  Js.Ok (match res with
         | Js.JArr (row :: _) =>
             if Js.isObject row then hd Js.JUndef (Js.values row) else Js.JUndef
         | _ => Js.JUndef
         end)
  /\ (forall k v ps rows,
         res = Js.JArr (Js.JObj ((k, v) :: ps) :: rows) ->
         QueryBuilder.extractResponseVal res = Js.Ok v).
Proof.
  assert (G : forall row rows,
             QueryBuilder.extractResponseVal (Js.JArr (row :: rows))
             = Js.Ok (if Js.isObject row then hd Js.JUndef (Js.values row)
                      else Js.JUndef)).
  { intros row rows. unfold QueryBuilder.extractResponseVal. simpl.
    unfold Js.elemAt. simpl.
    destruct (Js.isObject row); [| reflexivity].
    destruct (Js.values row); reflexivity. }
  split.
  - destruct res as [ | | b | n | s | l | ps]; try reflexivity.
    destruct l as [| row rows]; [reflexivity | apply G].
  - intros k v ps rows ->. rewrite G. simpl. rewrite String.eqb_refl.
    reflexivity.
Qed.

Lemma X6_extractResponseVal_witness :
  QueryBuilder.extractResponseVal
    (Js.JArr [Js.JObj [("COUNT(id)", Js.JNum (Js.Int 42)); ("x", Js.JNull)]])
  = Js.Ok (Js.JNum (Js.Int 42)).
Proof.
  destruct (X6_extractResponseVal
              (Js.JArr [Js.JObj [("COUNT(id)", Js.JNum (Js.Int 42)); ("x", Js.JNull)]]))
    as [_ H].
  apply (H "COUNT(id)" (Js.JNum (Js.Int 42)) [("x", Js.JNull)] []). reflexivity.
Defined.

(** X7: [buildOrderingPartial] looks at the columns of the request and at
    the first entry of its order only: two requests that agree on
    [columns] and on [order[0]] get the same clause (or both throw), so
    every further order entry is ignored. *)
Theorem X7_order_first_entry_only (rq1 rq2 : Js.JsVal) :
  Js.get rq1 "columns" = Js.get rq2 "columns" ->
  Js.bind (Js.get rq1 "order") (fun o => Js.get o "0")
  = Js.bind (Js.get rq2 "order") (fun o => Js.get o "0") ->
  QueryBuilder.buildOrderingPartial rq1 = QueryBuilder.buildOrderingPartial rq2.
Proof.
  intros C O. unfold QueryBuilder.buildOrderingPartial.
  destruct (Js.get rq1 "order") as [o1 | e1], (Js.get rq2 "order") as [o2 | e2];
    cbn [Js.bind] in *.
  - rewrite O. destruct (Js.get o2 "0") as [f | e]; cbn [Js.bind];
      [| reflexivity].
    unfold QueryBuilder.eachPush, QueryBuilder.orderEntry. rewrite C.
    reflexivity.
  - rewrite O. reflexivity.
  - rewrite <- O. reflexivity.
  - destruct e1, e2. reflexivity.
Qed.

Lemma X7_order_first_entry_only_witness :
  QueryBuilder.buildOrderingPartial
    (Js.JObj [("columns", Js.JArr [Samples.column "name" "true" "true" "";
                                   Samples.column "age" "true" "true" ""]);
              ("order", Js.JArr [Js.JObj [("column", Js.JNum (Js.Int 0)); ("dir", Js.JStr "asc")];
                                 Js.JObj [("column", Js.JNum (Js.Int 1)); ("dir", Js.JStr "desc")]])])
  = QueryBuilder.buildOrderingPartial
      (Js.JObj [("columns", Js.JArr [Samples.column "name" "true" "true" "";
                                     Samples.column "age" "true" "true" ""]);
                ("order", Js.JArr [Js.JObj [("column", Js.JNum (Js.Int 0)); ("dir", Js.JStr "asc")]])]).
Proof.
  apply X7_order_first_entry_only; reflexivity.
Defined.

(** X8: when the first order entry and the column it points to exist
    (the column index being a value the model prints exactly), and the
    name of that column and the direction of the entry are such values
    too, [buildOrderingPartial] returns [ ORDER BY <name> <dir>] if the
    column has [orderable === 'true'] and a non-empty name, and the empty
    string otherwise; the name and the direction are the request's own
    text, inserted without sanitising or checking them.  For an orderable
    named column whose name or direction cannot be converted to a
    primitive the call throws a TypeError. *)
Theorem X8_order_clause (rq ord o cols col : Js.JsVal) :
  Js.get rq "order" = Js.Ok ord ->
  Js.get ord "0" = Js.Ok o ->
  o <> Js.JUndef -> o <> Js.JNull ->
  Js.get rq "columns" = Js.Ok cols ->
  Js.printable (Props.field o "column") = true ->
  Js.getv cols (Props.field o "column") = Js.Ok col ->
  col <> Js.JUndef -> col <> Js.JNull ->
  (Js.printable (Props.field col "name") = true ->
   Js.printable (Props.field o "dir") = true ->
   QueryBuilder.buildOrderingPartial rq = Js.Ok (Props.orderClause o col))
  /\ (Js.strictEqStr (Props.field col "orderable") "true" = true ->
      Js.truthy (Props.field col "name") = true ->
      (Js.convertible (Props.field col "name")
       && Js.convertible (Props.field o "dir"))%bool = false ->
      QueryBuilder.buildOrderingPartial rq = Js.Throw Js.TypeError).
Proof.
  intros Ho H0 O1 O2 C K G N1 N2.
  apply IndexFacts.printable_convertible in K.
  unfold QueryBuilder.buildOrderingPartial.
  rewrite Ho. cbn [Js.bind]. rewrite H0. cbn [Js.bind QueryBuilder.eachPush].
  split.
  - intros Pn Pd.
    rewrite (IndexFacts.orderEntry_clause rq o cols col O1 O2 C K G N1 N2
               (IndexFacts.printable_convertible _ Pn)
               (IndexFacts.printable_convertible _ Pd)).
    unfold Props.orderClause.
    destruct (Js.strictEqStr (Props.field col "orderable") "true"
              && Js.truthy (Props.field col "name"))%bool; reflexivity.
  - intros S T F. unfold QueryBuilder.orderEntry.
    rewrite C, (IndexFacts.get_field o "column" O1 O2). cbn [Js.bind].
    rewrite (IndexFacts.getvM_convertible cols _ K), G. cbn [Js.bind].
    rewrite (IndexFacts.get_field col "orderable" N1 N2),
            (IndexFacts.get_field col "name" N1 N2),
            (IndexFacts.get_field o "dir" O1 O2).
    cbn [Js.bind]. rewrite S, T. unfold Js.toStringM.
    destruct (Js.convertible (Props.field col "name")); cbn [Js.bind];
      [| reflexivity].
    cbn [andb] in F. rewrite F. reflexivity.
Qed.

Lemma X8_order_clause_witness :
  QueryBuilder.buildOrderingPartial (Samples.sortedBy "name" "asc; DROP TABLE users")
  = Js.Ok " ORDER BY name asc; DROP TABLE users"
  /\ QueryBuilder.buildOrderingPartial
       (Js.JObj [("columns", Js.JArr [Js.JObj [("orderable", Js.JStr "true");
                                               ("name", Js.JStr "name")]]);
                 ("order", Js.JArr [Js.JObj [("column", Js.JNum (Js.Int 0));
                                             ("dir", Js.JObj [("toString", Js.JNum (Js.Int 1))])]])])
     = Js.Throw Js.TypeError.
Proof.
  split.
  - apply (X8_order_clause (Samples.sortedBy "name" "asc; DROP TABLE users")
             (Js.JArr [Js.JObj [("column", Js.JNum (Js.Int 0));
                                ("dir", Js.JStr "asc; DROP TABLE users")]])
             (Js.JObj [("column", Js.JNum (Js.Int 0));
                       ("dir", Js.JStr "asc; DROP TABLE users")])
             (Js.JArr [Js.JObj [("orderable", Js.JStr "true"); ("name", Js.JStr "name")]])
             (Js.JObj [("orderable", Js.JStr "true"); ("name", Js.JStr "name")]));
      try reflexivity; discriminate.
  - apply (X8_order_clause _
             (Js.JArr [Js.JObj [("column", Js.JNum (Js.Int 0));
                                ("dir", Js.JObj [("toString", Js.JNum (Js.Int 1))])]])
             (Js.JObj [("column", Js.JNum (Js.Int 0));
                       ("dir", Js.JObj [("toString", Js.JNum (Js.Int 1))])])
             (Js.JArr [Js.JObj [("orderable", Js.JStr "true"); ("name", Js.JStr "name")]])
             (Js.JObj [("orderable", Js.JStr "true"); ("name", Js.JStr "name")]));
      try reflexivity; discriminate.
Defined.

(** X9: [buildOrderingPartial] throws a TypeError when the request has no
    order, when its order is an empty array, and when the first order
    entry points outside the columns array. *)
Theorem X9_order_throws (rq : Js.JsVal) :
  (Js.get rq "order" = Js.Ok Js.JUndef ->
   QueryBuilder.buildOrderingPartial rq = Js.Throw Js.TypeError)
  /\ (Js.get rq "order" = Js.Ok (Js.JArr []) ->
      QueryBuilder.buildOrderingPartial rq = Js.Throw Js.TypeError)
  /\ (forall ord o l i,
         Js.get rq "order" = Js.Ok ord ->
         Js.get ord "0" = Js.Ok o ->
         o <> Js.JUndef -> o <> Js.JNull ->
         Props.field o "column" = Js.JNum (Js.Int i) ->
         Js.get rq "columns" = Js.Ok (Js.JArr l) ->
         ~ (0 <= i < Z.of_nat (List.length l)) ->
         QueryBuilder.buildOrderingPartial rq = Js.Throw Js.TypeError).
Proof.
  unfold QueryBuilder.buildOrderingPartial. split; [| split].
  - intros ->. reflexivity.
  - intros ->. cbn. unfold QueryBuilder.orderEntry.
    destruct (Js.get rq "columns") as [c | []]; reflexivity.
  - intros ord o l i Ho H0 O1 O2 F C R.
    rewrite Ho. cbn [Js.bind]. rewrite H0. cbn [Js.bind QueryBuilder.eachPush].
    rewrite (IndexFacts.orderEntry_no_column rq o (Js.JArr l) O1 O2 C);
      [reflexivity | rewrite F; reflexivity |].
    rewrite F, IndexFacts.getv_array.
    destruct (0 <=? i) eqn:E; [| reflexivity].
    apply Z.leb_le in E. rewrite IndexFacts.elemAt_outside by lia. reflexivity.
Qed.

Lemma X9_order_throws_witness :
  QueryBuilder.buildOrderingPartial
    (Js.JObj [("columns", Js.JArr [Samples.column "name" "true" "true" ""])])
  = Js.Throw Js.TypeError
  /\ QueryBuilder.buildOrderingPartial
       (Js.JObj [("columns", Js.JArr [Samples.column "name" "true" "true" ""]);
                 ("order", Js.JArr [])])
     = Js.Throw Js.TypeError
  /\ QueryBuilder.buildOrderingPartial
       (Js.JObj [("columns", Js.JArr [Samples.column "name" "true" "true" ""]);
                 ("order", Js.JArr [Js.JObj [("column", Js.JNum (Js.Int 1));
                                             ("dir", Js.JStr "asc")]])])
     = Js.Throw Js.TypeError.
Proof.
  split; [| split].
  - apply (proj1 (X9_order_throws _)). reflexivity.
  - apply (proj1 (proj2 (X9_order_throws _))). reflexivity.
  - eapply (proj2 (proj2 (X9_order_throws _))
              (Js.JArr [Js.JObj [("column", Js.JNum (Js.Int 1)); ("dir", Js.JStr "asc")]])
              (Js.JObj [("column", Js.JNum (Js.Int 1)); ("dir", Js.JStr "asc")])
              [Samples.column "name" "true" "true" ""] 1);
      try reflexivity; try discriminate.
    simpl. lia.
Defined.

(** ** What a returned statement set holds *)

Module StatementFacts.
Import Js QueryBuilder Props JsFacts.

Lemma buildCountStatement_head (self : Self) (rq : JsVal) (w : string) :
  buildWherePartial self rq = Ok w ->
  buildCountStatement self rq = Ok (countHead self ++ w).
Proof.
  intros W. unfold buildCountStatement, countHead. rewrite W. cbn [bind].
  f_equal. cbn [append].
  destruct (truthy (cfg (sSelectSql self))),
           (truthy (cfg (sCountColumnName self))),
           (truthy (cfg (sFromSql self)));
    rewrite ?append_assoc; cbn [append]; rewrite ?append_assoc; reflexivity.
Qed.

Lemma useStmt_schemaStatement (self : Self) :
  match buildSetDatabaseOrSchemaStatement self with
  | Some u => if truthy (JStr u) then Some u else None
  | None => None
  end = schemaStatement self.
Proof.
  unfold buildSetDatabaseOrSchemaStatement, schemaStatement, isOracle.
  destruct (sDatabaseOrSchema self) as [[| c s] |]; try reflexivity.
  simpl. destruct (strictEqStr (cfg (dbType self)) "oracle"); reflexivity.
Qed.

(** Everything a returned statement set holds, in terms of the composers. *)
Lemma buildStatements_inv (self : Self) (rq ss : JsVal) (q : StatementSet) :
  buildStatements self rq ss = Ok q ->
  exists w o l,
    buildWherePartial self rq = Ok w
    /\ buildOrderingPartial rq = Ok o
    /\ buildLimitPartial self rq = Ok l
    /\ changeDatabaseOrSchema q = schemaStatement self
    /\ q_recordsTotal q = Some (countHead self ++ w)
    /\ q_recordsFiltered q
       = (if truthy ss then Some (countHead self ++ w) else None)
    /\ select q
       = Some (let query := buildSelectPartial self ++ w ++ o ++ l in
               if (isOracle self && oraclePaged rq)%bool
               then "SELECT * FROM (SELECT a.*, ROWNUM rnum FROM (" ++ query
                    ++ ") a) WHERE rnum BETWEEN "
                    ++ numToString (addNum (parseInt (field rq "start")) (Int 1))
                    ++ " AND "
                    ++ numToString (addNum (parseInt (field rq "start"))
                                      (parseInt (field rq "length")))
               else query).
Proof.
  unfold buildStatements. rewrite useStmt_schemaStatement.
  destruct (buildWherePartial self rq) as [w | x] eqn:W;
    [| unfold buildCountStatement; rewrite W; discriminate].
  rewrite (buildCountStatement_head self rq w W). cbn [bind].
  destruct (buildOrderingPartial rq) as [o | x] eqn:O;
    [| destruct (truthy ss); discriminate].
  destruct (buildLimitPartial self rq) as [l | x] eqn:L;
    [| destruct (truthy ss); discriminate].
  assert (N1 : rq <> JUndef) by (intros ->; discriminate O).
  assert (N2 : rq <> JNull) by (intros ->; discriminate O).
  unfold isOracle, oraclePaged.
  rewrite (IndexFacts.get_field rq "start" N1 N2),
          (IndexFacts.get_field rq "length" N1 N2).
  unfold parseIntM.
  destruct (strictEqStr (cfg (dbType self)) "oracle").
  - destruct (truthy ss); cbn [bind];
      (destruct (convertible (field rq "start")); cbn [bind];
       [| discriminate]);
      (destruct (convertible (field rq "length")); cbn [bind];
       [| discriminate]);
      destruct (geZero (parseInt (field rq "length"))
                && geZero (parseInt (field rq "start")))%bool;
      cbn [bind andb]; intros H; injection H as <-; exists w, o, l;
      repeat split; reflexivity.
  - intros H. exists w, o, l. repeat (split; [reflexivity |]).
    destruct (truthy ss); cbn [bind andb] in H; injection H as <-;
      repeat split; reflexivity.
Qed.

(** On oracle a returned statement set means that [start] and [length]
    were converted. *)
Lemma buildStatements_oracle (self : Self) (rq ss : JsVal) (q : StatementSet) :
  buildStatements self rq ss = Ok q ->
  isOracle self = true ->
  convertible (field rq "start") = true /\ convertible (field rq "length") = true.
Proof.
  intros H D.
  destruct (buildStatements_inv self rq ss q H) as (w & o & l & W & O & L & _).
  revert H. unfold buildStatements, isOracle in *.
  rewrite (buildCountStatement_head self rq w W), W, O, L, D.
  assert (N1 : rq <> JUndef) by (intros ->; discriminate O).
  assert (N2 : rq <> JNull) by (intros ->; discriminate O).
  rewrite (IndexFacts.get_field rq "start" N1 N2),
          (IndexFacts.get_field rq "length" N1 N2).
  unfold parseIntM.
  destruct (truthy ss); cbn [bind];
    (destruct (convertible (field rq "start")); cbn [bind];
     [| discriminate]);
    (destruct (convertible (field rq "length")); cbn [bind];
     [| discriminate]);
    intros _; split; reflexivity.
Qed.

End StatementFacts.

(** X10: on a request that is an array or a plain object, [buildQuery]
    returns a statement set exactly when the WHERE, the ORDER and the LIMIT
    composer return and, on oracle, [start] and [length] can be converted
    to a primitive.  When [start] and [length] can be converted, the LIMIT
    composer returns, so [buildQuery] returns exactly when the WHERE and
    the ORDER composer do. *)
Theorem X10_buildQuery_returns_iff (self : QueryBuilder.Self) (rq : Js.JsVal) :
  Js.isObject rq = true ->
  ((exists q, snd (QueryBuilder.buildQuery self rq) = Js.Ok q)
   <-> (exists w o l,
           QueryBuilder.buildWherePartial self rq = Js.Ok w
           /\ QueryBuilder.buildOrderingPartial rq = Js.Ok o
           /\ QueryBuilder.buildLimitPartial self rq = Js.Ok l
           /\ (Props.isOracle self = true ->
               Js.convertible (Props.field rq "start") = true
               /\ Js.convertible (Props.field rq "length") = true)))
  /\ (Js.convertible (Props.field rq "start") = true ->
      Js.convertible (Props.field rq "length") = true ->
      ((exists q, snd (QueryBuilder.buildQuery self rq) = Js.Ok q)
       <-> (exists w o,
               QueryBuilder.buildWherePartial self rq = Js.Ok w
               /\ QueryBuilder.buildOrderingPartial rq = Js.Ok o))).
Proof.
  intros Obj. rewrite (Composition.buildQuery_isObject self rq Obj). simpl snd.
  assert (Fwd : forall q,
             QueryBuilder.buildStatements self rq
               (QueryBuilder.sanitize (Props.searchArg rq) None) = Js.Ok q ->
             exists w o l,
               QueryBuilder.buildWherePartial self rq = Js.Ok w
               /\ QueryBuilder.buildOrderingPartial rq = Js.Ok o
               /\ QueryBuilder.buildLimitPartial self rq = Js.Ok l
               /\ (Props.isOracle self = true ->
                   Js.convertible (Props.field rq "start") = true
                   /\ Js.convertible (Props.field rq "length") = true)).
  { intros q H.
    destruct (StatementFacts.buildStatements_inv _ _ _ _ H)
      as (w & o & l & W & O & L & _).
    exists w, o, l. repeat (split; [assumption |]).
    apply (StatementFacts.buildStatements_oracle _ _ _ _ H). }
  split; [split |].
  - intros [q H]. exact (Fwd q H).
  - intros (w & o & l & W & O & L & C).
    destruct (Composition.buildStatements_ok self rq
                (QueryBuilder.sanitize (Props.searchArg rq) None) w o l W O L C)
      as (q & E & _).
    exists q. exact E.
  - intros Cs Cl. split.
    + intros [q H]. destruct (Fwd q H) as (w & o & _ & W & O & _).
      exists w, o. split; assumption.
    + intros (w & o & W & O).
      destruct (Pagination.buildLimitPartial_returns self rq Cs Cl) as [l L].
      destruct (Composition.buildStatements_ok self rq
                  (QueryBuilder.sanitize (Props.searchArg rq) None) w o l W O L
                  (fun _ => conj Cs Cl))
        as (q & E & _).
      exists q. exact E.
Qed.

Lemma X10_buildQuery_returns_iff_witness :
  (exists q,
      snd (QueryBuilder.buildQuery (Samples.users None []) Samples.annRequest) = Js.Ok q)
  <-> (exists w o,
          QueryBuilder.buildWherePartial (Samples.users None []) Samples.annRequest
          = Js.Ok w
          /\ QueryBuilder.buildOrderingPartial Samples.annRequest = Js.Ok o).
Proof.
  apply (X10_buildQuery_returns_iff (Samples.users None []) Samples.annRequest);
    reflexivity.
Defined.

(** X11: in every statement set [buildQuery] returns for an array or
    object request, the unfiltered count statement is the count head
    followed by the very WHERE clause of the select statement, search
    predicates included; the filtered count statement is present exactly
    when the sanitized global search term is non-empty, and is then the
    same text as the unfiltered one. *)
Theorem X11_count_statements
    (self : QueryBuilder.Self) (rq : Js.JsVal) (q : QueryBuilder.StatementSet) :
  Js.isObject rq = true ->
  snd (QueryBuilder.buildQuery self rq) = Js.Ok q ->
  exists w,
    QueryBuilder.buildWherePartial self rq = Js.Ok w
    /\ QueryBuilder.q_recordsTotal q = Some (Props.countHead self ++ w)
    /\ QueryBuilder.q_recordsFiltered q
       = (if Js.truthy (QueryBuilder.sanitize (Props.searchArg rq) None)
          then QueryBuilder.q_recordsTotal q else None).
Proof.
  intros Obj. rewrite (Composition.buildQuery_isObject self rq Obj). simpl snd.
  intros H.
  destruct (StatementFacts.buildStatements_inv _ _ _ _ H)
    as (w & o & l & W & _ & _ & _ & T & F & _).
  exists w. rewrite T, F. split; [exact W |]. split; [reflexivity |].
  destruct (Js.truthy _); reflexivity.
Qed.

Lemma X11_count_statements_witness :
  exists w,
    QueryBuilder.buildWherePartial (Samples.users None ["name"]) Samples.annRequest
    = Js.Ok w
    /\ Some "SELECT COUNT(id) FROM users WHERE ((name LIKE '%ann%'))"
       = Some (Props.countHead (Samples.users None ["name"]) ++ w)
    /\ Some "SELECT COUNT(id) FROM users WHERE ((name LIKE '%ann%'))"
       = (if Js.truthy (QueryBuilder.sanitize (Props.searchArg Samples.annRequest) None)
          then Some "SELECT COUNT(id) FROM users WHERE ((name LIKE '%ann%'))"
          else None).
Proof.
  apply (X11_count_statements (Samples.users None ["name"]) Samples.annRequest
           {| QueryBuilder.changeDatabaseOrSchema := None;
              QueryBuilder.q_recordsTotal :=
                Some "SELECT COUNT(id) FROM users WHERE ((name LIKE '%ann%'))";
              QueryBuilder.q_recordsFiltered :=
                Some "SELECT COUNT(id) FROM users WHERE ((name LIKE '%ann%'))";
              QueryBuilder.select :=
                Some "SELECT * FROM users WHERE ((name LIKE '%ann%')) ORDER BY name asc LIMIT 0, 10" |});
    reflexivity.
Defined.

(** X12: on a dialect other than oracle, the select statement of every
    returned statement set is the SELECT part followed by the WHERE, the
    ORDER BY and the LIMIT clause, in this order and with nothing else. *)
Theorem X12_select_composition
    (self : QueryBuilder.Self) (rq : Js.JsVal) (q : QueryBuilder.StatementSet) :
  Js.isObject rq = true ->
  Props.isOracle self = false ->
  snd (QueryBuilder.buildQuery self rq) = Js.Ok q ->
  exists w o l,
    QueryBuilder.buildWherePartial self rq = Js.Ok w
    /\ QueryBuilder.buildOrderingPartial rq = Js.Ok o
    /\ QueryBuilder.buildLimitPartial self rq = Js.Ok l
    /\ QueryBuilder.select q
       = Some (QueryBuilder.buildSelectPartial self ++ w ++ o ++ l).
Proof.
  intros Obj D. rewrite (Composition.buildQuery_isObject self rq Obj). simpl snd.
  intros H.
  destruct (StatementFacts.buildStatements_inv _ _ _ _ H)
    as (w & o & l & W & O & L & _ & _ & _ & S).
  exists w, o, l. rewrite S, D. repeat split; assumption.
Qed.

Lemma X12_select_composition_witness :
  exists w o l,
    QueryBuilder.buildWherePartial (Samples.users (Some "postgres") ["name"])
      Samples.annRequest = Js.Ok w
    /\ QueryBuilder.buildOrderingPartial Samples.annRequest = Js.Ok o
    /\ QueryBuilder.buildLimitPartial (Samples.users (Some "postgres") ["name"])
         Samples.annRequest = Js.Ok l
    /\ Some "SELECT * FROM users WHERE ((CAST(name as text) ILIKE '%ann%')) ORDER BY name asc OFFSET 0 LIMIT 10"
       = Some (QueryBuilder.buildSelectPartial (Samples.users (Some "postgres") ["name"])
               ++ w ++ o ++ l).
Proof.
  apply (X12_select_composition (Samples.users (Some "postgres") ["name"])
           Samples.annRequest
           {| QueryBuilder.changeDatabaseOrSchema := None;
              QueryBuilder.q_recordsTotal :=
                Some "SELECT COUNT(id) FROM users WHERE ((CAST(name as text) ILIKE '%ann%'))";
              QueryBuilder.q_recordsFiltered :=
                Some "SELECT COUNT(id) FROM users WHERE ((CAST(name as text) ILIKE '%ann%'))";
              QueryBuilder.select :=
                Some "SELECT * FROM users WHERE ((CAST(name as text) ILIKE '%ann%')) ORDER BY name asc OFFSET 0 LIMIT 10" |});
    reflexivity.
Defined.

(** X13: on the oracle dialect, when [start] or [length] of the request
    does not parse as a non-negative integer (absent, not a number, or
    negative), the select statement of every returned statement set is
    neither wrapped nor limited: it is the SELECT part followed by the
    WHERE and the ORDER BY clause. *)
Theorem X13_oracle_unpaged
    (self : QueryBuilder.Self) (rq : Js.JsVal) (q : QueryBuilder.StatementSet) :
  Js.isObject rq = true ->
  Props.isOracle self = true ->
  Props.oraclePaged rq = false ->
  snd (QueryBuilder.buildQuery self rq) = Js.Ok q ->
  exists w o,
    QueryBuilder.buildWherePartial self rq = Js.Ok w
    /\ QueryBuilder.buildOrderingPartial rq = Js.Ok o
    /\ QueryBuilder.select q = Some (QueryBuilder.buildSelectPartial self ++ w ++ o).
Proof.
  intros Obj D P. rewrite (Composition.buildQuery_isObject self rq Obj). simpl snd.
  intros H.
  destruct (StatementFacts.buildStatements_inv _ _ _ _ H)
    as (w & o & l & W & O & L & _ & _ & _ & S).
  rewrite (Pagination.buildLimitPartial_oracle self rq D) in L.
  injection L as <-.
  exists w, o. rewrite S, D, P. cbv zeta. cbn [andb].
  rewrite Composition.append_empty_r. repeat split; assumption.
Qed.

Lemma X13_oracle_unpaged_witness :
  exists w o,
    QueryBuilder.buildWherePartial (Samples.users (Some "oracle") [])
      (Samples.request "1" "" 0 (-1)) = Js.Ok w
    /\ QueryBuilder.buildOrderingPartial (Samples.request "1" "" 0 (-1)) = Js.Ok o
    /\ Some "SELECT * FROM users ORDER BY name asc"
       = Some (QueryBuilder.buildSelectPartial (Samples.users (Some "oracle") [])
               ++ w ++ o).
Proof.
  apply (X13_oracle_unpaged (Samples.users (Some "oracle") [])
           (Samples.request "1" "" 0 (-1))
           {| QueryBuilder.changeDatabaseOrSchema := None;
              QueryBuilder.q_recordsTotal := Some "SELECT COUNT(id) FROM users";
              QueryBuilder.q_recordsFiltered := None;
              QueryBuilder.select := Some "SELECT * FROM users ORDER BY name asc" |});
    reflexivity.
Defined.

(** X14: the schema statement of every returned statement set depends on
    the configuration only: it is absent when [sDatabaseOrSchema] is unset
    or empty, [ALTER SESSION SET CURRENT_SCHEMA = <schema>] on oracle and
    [USE <schema>] on every other dialect, with the schema name as
    configured. *)
Theorem X14_schema_statement
    (self : QueryBuilder.Self) (rq : Js.JsVal) (q : QueryBuilder.StatementSet) :
  Js.isObject rq = true ->
  snd (QueryBuilder.buildQuery self rq) = Js.Ok q ->
  QueryBuilder.changeDatabaseOrSchema q = Props.schemaStatement self.
Proof.
  intros Obj. rewrite (Composition.buildQuery_isObject self rq Obj). simpl snd.
  intros H.
  destruct (StatementFacts.buildStatements_inv _ _ _ _ H)
    as (w & o & l & _ & _ & _ & C & _).
  exact C.
Qed.

Lemma X14_schema_statement_witness :
  Some "ALTER SESSION SET CURRENT_SCHEMA = hr"
  = Props.schemaStatement
      {| QueryBuilder.sTableName := Some "users";
         QueryBuilder.sCountColumnName := None;
         QueryBuilder.sDatabaseOrSchema := Some "hr";
         QueryBuilder.aSearchColumns := [];
         QueryBuilder.sSelectSql := None;
         QueryBuilder.sFromSql := None;
         QueryBuilder.sWhereAndSql := None;
         QueryBuilder.sDateColumnName := None;
         QueryBuilder.dateFrom := None;
         QueryBuilder.dateTo := None;
         QueryBuilder.oRequestQuery := Js.JUndef;
         QueryBuilder.sAjaxDataProp := "data";
         QueryBuilder.dbType := Some "oracle" |}.
Proof.
  apply (X14_schema_statement _ (Samples.request "1" "" 0 (-1))
           {| QueryBuilder.changeDatabaseOrSchema :=
                Some "ALTER SESSION SET CURRENT_SCHEMA = hr";
              QueryBuilder.q_recordsTotal := Some "SELECT COUNT(id) FROM users";
              QueryBuilder.q_recordsFiltered := None;
              QueryBuilder.select := Some "SELECT * FROM users ORDER BY name asc" |});
    reflexivity.
Defined.

(** ** Further properties of the WHERE clause *)

Module WhereFacts.
Import Js QueryBuilder Props JsFacts.

(** The callback of the column-scoped search on a readable column. *)
Lemma searchEntry_column (self : Self) (rq column : JsVal) :
  readableColumn column ->
  searchEntry self rq false false column = Ok (columnPredicates self column).
Proof.
  intros (N1 & N2 & S). unfold searchEntry, columnPredicates, columnSearchValue.
  rewrite (IndexFacts.get_field column "searchable" N1 N2). cbn [bind].
  destruct (strictEqStr (field column "searchable") "true"); [| reflexivity].
  destruct (S eq_refl) as [S1 S2].
  rewrite (IndexFacts.get_field column "name" N1 N2),
          (IndexFacts.get_field column "search" N1 N2).
  cbn [bind].
  rewrite (IndexFacts.get_field (field column "search") "value" S1 S2).
  cbn [bind]. unfold entryPredicates, searchPredicate, isPostgres.
  destruct (truthy (sanitize (field column "name") None)
            && truthy (sanitize (field (field column "search") "value") None))%bool;
    reflexivity.
Qed.

(** With a global search value that sanitizes to nothing, the callback of
    the global search pushes no predicate. *)
Lemma searchEntry_dropped (self : Self) (rq term column : JsVal) (cc : bool)
    (l : list string) :
  (s <- get rq "search" ;; get s "value") = Ok term ->
  truthy (sanitize term None) = false ->
  searchEntry self rq true cc column = Ok l -> l = [].
Proof.
  intros G F. unfold searchEntry.
  destruct (if cc then Ok true else _) as [[] | e]; cbn [bind];
    [| intros [= <-]; reflexivity | discriminate].
  destruct (if cc then Ok column else _) as [n | e]; cbn [bind];
    [| discriminate].
  rewrite G. cbn [bind]. rewrite F, Bool.andb_false_r.
  intros [= <-]. reflexivity.
Qed.

Lemma eachPush_dropped (f : JsVal -> Res (list string)) (items : list JsVal)
    (l : list string) :
  (forall x r, f x = Ok r -> r = []) ->
  eachPush f items = Ok l -> l = [].
Proof.
  intros H. revert l. induction items as [| x xs IH]; simpl; intros l.
  - intros [= <-]. reflexivity.
  - destruct (f x) as [r | e] eqn:E; cbn [bind]; [| discriminate].
    destruct (eachPush f xs) as [r' | e]; cbn [bind]; [| discriminate].
    intros [= <-]. rewrite (H x r E), (IH r' eq_refl). reflexivity.
Qed.

(** The argument of [sanitize] in [buildQuery] is the global search value
    or, when [search] is not an object, something that sanitizes to
    nothing as well. *)
Lemma searchArg_dropped (rq term : JsVal) :
  (s <- get rq "search" ;; get s "value") = Ok term ->
  truthy (sanitize term None) = false ->
  truthy (sanitize (searchArg rq) None) = false.
Proof.
  intros G F. unfold searchArg, field.
  destruct (get rq "search") as [s | e]; cbn [bind] in G; [| discriminate].
  destruct (isObject s); [| reflexivity].
  rewrite G. exact F.
Qed.

(** A date predicate is never the empty text. *)
Lemma buildDatePartial_nonempty (self : Self) (d : string) :
  buildDatePartial self = Some d -> truthy (JStr d) = true.
Proof.
  unfold buildDatePartial.
  destruct ((truthy (cfg (sDateColumnName self)) && isSome (dateFrom self))
            || isSome (dateTo self))%bool; [| discriminate].
  assert (N : forall a b, truthy (JStr (a ++ String " " b)) = true).
  { intros a b. destruct a; reflexivity. }
  destruct (dateFrom self), (dateTo self); intros [= <-]; try apply N.
Qed.

Lemma prefix_append (a b : string) : String.prefix a (a ++ b) = true.
Proof.
  induction a as [| x a IH]; simpl.
  - destruct b; reflexivity.
  - destruct (ascii_dec x x); [exact IH | congruence].
Qed.

End WhereFacts.

(** X15: the column-scoped search group is built from the columns of the
    request alone, whatever the allow-list of the configuration and the
    global search term: on readable columns [buildSearchArray] returns,
    in order, one predicate for each column marked [searchable === 'true']
    whose sanitized name and sanitized own search value are both
    non-empty. *)
Theorem X15_column_group (self : QueryBuilder.Self) (rq : Js.JsVal) :
  rq <> Js.JUndef -> rq <> Js.JNull ->
  Forall Props.readableColumn (Js.eachItems (Props.field rq "columns")) ->
  QueryBuilder.buildSearchArray self rq false
  = Js.Ok (flat_map (Props.columnPredicates self)
             (Js.eachItems (Props.field rq "columns"))).
Proof.
  intros N1 N2 F. unfold QueryBuilder.buildSearchArray.
  rewrite Bool.andb_false_r, (IndexFacts.get_field rq "columns" N1 N2).
  cbn [Js.bind]. apply Predicates.eachPush_flat.
  intros x Hx. rewrite Forall_forall in F.
  apply WhereFacts.searchEntry_column. apply F. exact Hx.
Qed.

Lemma X15_column_group_witness :
  QueryBuilder.buildSearchArray (Samples.users None ["zip"]) (Samples.nameSearch "bob") false
  = Js.Ok ["name LIKE '%bob%'"].
Proof.
  apply (X15_column_group (Samples.users None ["zip"]) (Samples.nameSearch "bob"));
    try discriminate.
  repeat constructor; try discriminate.
Defined.

(** X16: a global search value that [sanitize] rejects or leaves empty (a
    string of more than 256 characters, a value that is not a string) is
    dropped without notice: the global search pushes no predicate, and a
    returned statement set has no filtered count statement. *)
Theorem X16_search_term_dropped
    (self : QueryBuilder.Self) (rq term : Js.JsVal) :
  Js.bind (Js.get rq "search") (fun s => Js.get s "value") = Js.Ok term ->
  Js.truthy (QueryBuilder.sanitize term None) = false ->
  (forall l, QueryBuilder.buildSearchArray self rq true = Js.Ok l -> l = [])
  /\ (forall q, snd (QueryBuilder.buildQuery self rq) = Js.Ok q ->
        QueryBuilder.q_recordsFiltered q = None).
Proof.
  intros G F. split.
  - intros l. unfold QueryBuilder.buildSearchArray.
    destruct (if (negb _ && true)%bool then _ else _) as [items | e];
      cbn [Js.bind]; [| discriminate].
    apply WhereFacts.eachPush_dropped. intros x r.
    apply (WhereFacts.searchEntry_dropped self rq term x _ r G F).
  - intros q. destruct (QueryBuilder.isObjectType rq) eqn:T.
    + destruct (Composition.isObjectType_cases rq T) as [-> | Obj];
        [discriminate |].
      rewrite (Composition.buildQuery_isObject self rq Obj). simpl snd.
      intros H.
      destruct (StatementFacts.buildStatements_inv _ _ _ _ H)
        as (w & o & l & _ & _ & _ & _ & _ & Fl & _).
      rewrite Fl, (WhereFacts.searchArg_dropped rq term G F). reflexivity.
    + rewrite (Composition.buildQuery_not_object self rq T). simpl snd.
      intros [= <-]. reflexivity.
Qed.

Lemma X16_search_term_dropped_witness :
  (forall l,
      QueryBuilder.buildSearchArray (Samples.users None ["name"])
        (Js.JObj [("search", Js.JObj [("value", Js.JNum (Js.Int 5))])]) true
      = Js.Ok l -> l = [])
  /\ (forall q,
         snd (QueryBuilder.buildQuery (Samples.users None ["name"])
                (Js.JObj [("search", Js.JObj [("value", Js.JNum (Js.Int 5))])]))
         = Js.Ok q ->
         QueryBuilder.q_recordsFiltered q = None).
Proof.
  apply (X16_search_term_dropped (Samples.users None ["name"])
           (Js.JObj [("search", Js.JObj [("value", Js.JNum (Js.Int 5))])])
           (Js.JNum (Js.Int 5))); reflexivity.
Defined.

(** X17: the WHERE clause is empty exactly when there is no search
    predicate, no [sWhereAndSql] and no date predicate; every other WHERE
    clause starts with [ WHERE (]. *)
Theorem X17_where_empty (self : QueryBuilder.Self) (rq : Js.JsVal) (w : string) :
  QueryBuilder.buildWherePartial self rq = Js.Ok w ->
  (w = ""
   <-> (QueryBuilder.buildSearchPartial self rq = Js.Ok ""
        /\ Js.truthy (QueryBuilder.cfg (QueryBuilder.sWhereAndSql self)) = false
        /\ QueryBuilder.buildDatePartial self = None))
  /\ (w <> "" -> String.prefix " WHERE (" w = true).
Proof.
  unfold QueryBuilder.buildWherePartial.
  destruct (QueryBuilder.buildSearchPartial self rq) as [sq | e];
    cbn [Js.bind]; [| discriminate].
  pose proof (WhereFacts.buildDatePartial_nonempty self) as D.
  destruct (QueryBuilder.buildDatePartial self) as [d |].
  - rewrite (D d eq_refl).
    destruct (Js.truthy (Js.JStr sq)), (Js.truthy (QueryBuilder.cfg _));
      cbn [app QueryBuilder.isEmptyList]; intros [= <-];
      (split; [split; [discriminate | intros (_ & _ & [=])]
              | intros _; apply (WhereFacts.prefix_append " WHERE (")]).
  - destruct (Js.truthy (Js.JStr sq)) eqn:S,
             (Js.truthy (QueryBuilder.cfg (QueryBuilder.sWhereAndSql self)));
      cbn [app QueryBuilder.isEmptyList]; intros [= <-].
    + split; [split; [discriminate | intros (_ & [=] & _)]
             | intros _; apply (WhereFacts.prefix_append " WHERE (")].
    + split; [split; [discriminate |]
             | intros _; apply (WhereFacts.prefix_append " WHERE (")].
      intros ([= ->] & _). discriminate S.
    + split; [split; [discriminate | intros (_ & [=] & _)]
             | intros _; apply (WhereFacts.prefix_append " WHERE (")].
    + split; [| congruence]. split; [| reflexivity].
      intros _. destruct sq; [auto | discriminate S].
Qed.

Lemma X17_where_empty_witness :
  ("" = ""
   <-> (QueryBuilder.buildSearchPartial (Samples.users None []) (Samples.request "1" "" 0 10)
        = Js.Ok ""
        /\ Js.truthy (QueryBuilder.cfg (QueryBuilder.sWhereAndSql (Samples.users None [])))
           = false
        /\ QueryBuilder.buildDatePartial (Samples.users None []) = None))
  /\ ("" <> "" -> String.prefix " WHERE (" "" = true).
Proof.
  apply (X17_where_empty (Samples.users None []) (Samples.request "1" "" 0 10) "").
  reflexivity.
Defined.

(** ** The reduced copy of a reply *)

Module CopyFacts.
Import Js QueryBuilder Props JsFacts.

Lemma lookup_setProp_same (k : string) (v : JsVal) (ps : list (string * JsVal)) :
  lookup k (setProp k v ps) = v.
Proof.
  induction ps as [| [k' x] ps IH]; simpl.
  - rewrite String.eqb_refl. reflexivity.
  - destruct (String.eqb k k') eqn:E; simpl; rewrite ?String.eqb_refl, ?E;
      [reflexivity | exact IH].
Qed.

Lemma lookup_setProp_other (k k' : string) (v : JsVal) (ps : list (string * JsVal)) :
  k <> k' -> lookup k (setProp k' v ps) = lookup k ps.
Proof.
  intros N. apply String.eqb_neq in N.
  induction ps as [| [k0 x] ps IH]; simpl.
  - rewrite N. reflexivity.
  - destruct (String.eqb k' k0) eqn:E; simpl.
    + apply String.eqb_eq in E. subst k0. rewrite N. reflexivity.
    + destruct (String.eqb k k0); [reflexivity | exact IH].
Qed.

Lemma lookup_omit_other (k k' : string) (ps : list (string * JsVal)) :
  k <> k' -> lookup k (omit ps k') = lookup k ps.
Proof.
  intros N. unfold omit.
  induction ps as [| [k0 x] ps IH]; simpl; [reflexivity |].
  destruct (String.eqb k0 k') eqn:E; simpl.
  - apply String.eqb_eq in E. subst k0.
    apply String.eqb_neq in N. rewrite N. exact IH.
  - destruct (String.eqb k k0); [reflexivity | exact IH].
Qed.

Lemma skipn_nth (l : list JsVal) (a : nat) :
  (a < List.length l)%nat -> skipn a l = elemAt l a :: skipn (S a) l.
Proof.
  unfold elemAt. revert a. induction l as [| x l IH]; intros a H; simpl in H.
  - lia.
  - destruct a as [| a]; [reflexivity |].
    simpl. apply IH. lia.
Qed.

Lemma pushAll_from (l : list JsVal) (k a : nat) :
  (a + k <= List.length l)%nat ->
  pushAll (JArr l) (seq a k) = Ok (firstn k (skipn a l)).
Proof.
  revert a. induction k as [| k IH]; intros a H; cbn [seq pushAll firstn];
    [reflexivity |].
  rewrite IndexFacts.getv_array.
  replace (0 <=? Z.of_nat a) with true by (symmetry; apply Z.leb_le; lia).
  rewrite Nat2Z.id. cbn [bind]. rewrite IH by lia. cbn [bind].
  rewrite (skipn_nth l a) by lia. reflexivity.
Qed.

Lemma pushAll_array (l : list JsVal) (k : nat) :
  (k <= List.length l)%nat -> pushAll (JArr l) (seq 0 k) = Ok (firstn k l).
Proof.
  intros H. rewrite pushAll_from by lia. reflexivity.
Qed.

(** The number of passes of the copying loop, for a count that is a
    number or absent and a payload of [len] elements. *)
Lemma loop_passes (count : JsVal) (len : nat) (counts : num) :
  count = JUndef \/ (exists n, count = JNum n) ->
  (if truthy count
   then match toNumber count, toNumber (JNum (Int (Z.of_nat len))) with
        | Some a, Some b => Some (mathMin a b)
        | _, _ => None
        end
   else toNumber (JNum (Int (Z.of_nat len)))) = Some counts ->
  loopCount counts = keptRows count len /\ (keptRows count len <= len)%nat.
Proof.
  intros [-> | [[| c] ->]]; simpl.
  - intros [= <-]. simpl. rewrite Nat2Z.id. lia.
  - intros [= <-]. simpl. rewrite Nat2Z.id. lia.
  - destruct (c =? 0); simpl; intros [= <-]; simpl.
    + rewrite Nat2Z.id. lia.
    + lia.
Qed.

End CopyFacts.

(** X18: on a plain object whose [data] property is an array, with a count
    that is a number or absent, [filteredResult] returns a new object that
    keeps every other property, holds under [aaLength] the length of the
    array, and holds under [data] the leading elements of the array: all
    of them when the count is absent, 0 or NaN, the first [count] when it
    lies within the array, none when it is negative. *)
Theorem X18_filteredResult_rows
    (options : QueryBuilder.Options.t) (props : list (string * Js.JsVal))
    (rows : list Js.JsVal) (count : Js.JsVal) :
  Js.lookup "data" props = Js.JArr rows ->
  count = Js.JUndef \/ (exists n, count = Js.JNum n) ->
  exists result,
    QueryBuilder.filteredResult (QueryBuilder.new_QueryBuilder options)
      (Js.JObj props) count = Some (Js.Ok (Js.JObj result))
    /\ Js.lookup "data" result
       = Js.JArr (firstn (Props.keptRows count (List.length rows)) rows)
    /\ Js.lookup "aaLength" result = Js.JNum (Js.Int (Z.of_nat (List.length rows)))
    /\ (forall k, k <> "data" -> k <> "aaLength" ->
          Js.lookup k result = Js.lookup k props).
Proof.
  intros P C. unfold QueryBuilder.filteredResult.
  cbn [Js.truthy QueryBuilder.new_QueryBuilder QueryBuilder.sAjaxDataProp
       Js.get Js.bind].
  rewrite P. cbn [Js.truthy Js.bind]. simpl Js.get. cbn iota.
  destruct (if Js.truthy count then _ else _) as [counts |] eqn:E.
  - destruct (CopyFacts.loop_passes count (List.length rows) counts C E)
      as [L B].
    cbn [Js.bind]. rewrite L, (CopyFacts.pushAll_array rows _ B).
    cbn [Js.bind]. eexists. split; [reflexivity |]. split; [| split].
    + apply CopyFacts.lookup_setProp_same.
    + rewrite !CopyFacts.lookup_setProp_other by discriminate.
      apply CopyFacts.lookup_setProp_same.
    + intros k K1 K2.
      rewrite !CopyFacts.lookup_setProp_other by assumption.
      apply CopyFacts.lookup_omit_other. exact K1.
  - exfalso. destruct C as [-> | [[| c] ->]]; simpl in E; try discriminate.
    destruct (c =? 0); discriminate.
Qed.

Lemma X18_filteredResult_rows_witness :
  exists result,
    QueryBuilder.filteredResult (QueryBuilder.new_QueryBuilder Samples.usersOptions)
      Samples.reply3 (Js.JNum (Js.Int 2)) = Some (Js.Ok (Js.JObj result))
    /\ Js.lookup "data" result = Js.JArr [Js.JStr "a"; Js.JStr "b"]
    /\ Js.lookup "aaLength" result = Js.JNum (Js.Int 3)
    /\ (forall k, k <> "data" -> k <> "aaLength" ->
          Js.lookup k result
          = Js.lookup k [("draw", Js.JNum (Js.Int 1));
                         ("recordsTotal", Js.JNum (Js.Int 3));
                         ("data", Js.JArr [Js.JStr "a"; Js.JStr "b"; Js.JStr "c"])]).
Proof.
  apply (X18_filteredResult_rows Samples.usersOptions
           [("draw", Js.JNum (Js.Int 1)); ("recordsTotal", Js.JNum (Js.Int 3));
            ("data", Js.JArr [Js.JStr "a"; Js.JStr "b"; Js.JStr "c"])]
           [Js.JStr "a"; Js.JStr "b"; Js.JStr "c"] (Js.JNum (Js.Int 2))).
  - reflexivity.
  - right. exists (Js.Int 2). reflexivity.
Defined.

(** X19: [filteredResult] returns [null] for a falsy [obj]; on a plain
    object without a truthy [data] property, with a count that is a number
    or absent, it returns a copy with every other property kept,
    [aaLength] 0 and an empty [data] array. *)
Theorem X19_filteredResult_no_rows
    (options : QueryBuilder.Options.t) (props : list (string * Js.JsVal))
    (count : Js.JsVal) :
  (forall obj, Js.truthy obj = false ->
     QueryBuilder.filteredResult (QueryBuilder.new_QueryBuilder options) obj count
     = Some (Js.Ok Js.JNull))
  /\ (Js.truthy (Js.lookup "data" props) = false ->
      count = Js.JUndef \/ (exists n, count = Js.JNum n) ->
      exists result,
        QueryBuilder.filteredResult (QueryBuilder.new_QueryBuilder options)
          (Js.JObj props) count = Some (Js.Ok (Js.JObj result))
        /\ Js.lookup "data" result = Js.JArr []
        /\ Js.lookup "aaLength" result = Js.JNum (Js.Int 0)
        /\ (forall k, k <> "data" -> k <> "aaLength" ->
              Js.lookup k result = Js.lookup k props)).
Proof.
  split.
  - intros obj F. unfold QueryBuilder.filteredResult. rewrite F. reflexivity.
  - intros P C. unfold QueryBuilder.filteredResult.
    cbn [Js.truthy QueryBuilder.new_QueryBuilder QueryBuilder.sAjaxDataProp
         Js.get Js.bind].
    rewrite P. cbn [Js.bind].
    assert (E : exists counts,
               (if Js.truthy count
                then match QueryBuilder.toNumber count,
                           QueryBuilder.toNumber (Js.JNum (Js.Int 0)) with
                     | Some a, Some b => Some (QueryBuilder.mathMin a b)
                     | _, _ => None
                     end
                else QueryBuilder.toNumber (Js.JNum (Js.Int 0))) = Some counts
               /\ QueryBuilder.loopCount counts = 0%nat).
    { destruct C as [-> | [[| c] ->]]; simpl; eauto.
      destruct (c =? 0); simpl; eexists; (split; [reflexivity |]); simpl; lia. }
    destruct E as (counts & -> & ->). cbn [seq QueryBuilder.pushAll Js.bind].
    eexists. split; [reflexivity |]. split; [| split].
    + apply CopyFacts.lookup_setProp_same.
    + rewrite !CopyFacts.lookup_setProp_other by discriminate.
      apply CopyFacts.lookup_setProp_same.
    + intros k K1 K2.
      rewrite !CopyFacts.lookup_setProp_other by assumption.
      apply CopyFacts.lookup_omit_other. exact K1.
Qed.

Lemma X19_filteredResult_no_rows_witness :
  exists result,
    QueryBuilder.filteredResult (QueryBuilder.new_QueryBuilder Samples.usersOptions)
      (Js.JObj [("draw", Js.JNum (Js.Int 1)); ("data", Js.JNull)]) (Js.JNum (Js.Int 5))
    = Some (Js.Ok (Js.JObj result))
    /\ Js.lookup "data" result = Js.JArr []
    /\ Js.lookup "aaLength" result = Js.JNum (Js.Int 0)
    /\ (forall k, k <> "data" -> k <> "aaLength" ->
          Js.lookup k result
          = Js.lookup k [("draw", Js.JNum (Js.Int 1)); ("data", Js.JNull)]).
Proof.
  destruct (X19_filteredResult_no_rows Samples.usersOptions
              [("draw", Js.JNum (Js.Int 1)); ("data", Js.JNull)] (Js.JNum (Js.Int 5)))
    as [_ H].
  apply H.
  - reflexivity.
  - right. exists (Js.Int 5). reflexivity.
Defined.
